(** * Dose-response activation notebook: a shallow embedding

    Source: [notebooks/dose-response-activation.ipynb].

    The notebook computes with binary64 floating-point numbers.  The
    arithmetic of [dose_response] is embedded once, over an interface, and
    read in three ways:
    - over binary64 floats ([dose_response_b64]), which is what the program
      computes; [np.exp] is a parameter of that reading;
    - over the real numbers ([value], [dose_response_float]), which is the
      exact-arithmetic reading: it agrees with the program on which
      expression is evaluated where, not on rounding, and statements about
      strict order or exact equality of different expressions made in it are
      statements about the curve, not about the floats the program returns;
    - over symbolic tensors ([term]), as in the model blocks.
    Python [int] literals are read through [IZR] in the real reading.

    The numpy and pandas calls the notebook makes ([np.linspace], [np.vstack],
    [ndarray.flatten], [np.concatenate], [np.exp], broadcasting arithmetic,
    [np.random.normal], [pd.DataFrame]) are library code; they are modelled
    below after their documented behaviour, restricted to the argument shapes
    the notebook can reach, and return [None] where the library would raise
    or where the model has no real-valued answer. *)

From Stdlib Require Import Floats String Reals Lra Lia ZArith Bool List.
From Stdlib Require Uint63.

Set Warnings "-inexact-float".
Import ListNotations.
Open Scope string_scope.
Open Scope list_scope.
Open Scope R_scope.

(** ** Fallible computations *)

Definition obind {A B : Type} (m : option A) (k : A -> option B) : option B :=
  match m with
  | Some a => k a
  | None => None
  end.

Notation "'let?' x := e 'in' k" := (obind e (fun x => k))
  (at level 10, x name, e at level 100, k at level 200).

Fixpoint traverse {A B : Type} (f : A -> option B) (l : list A) : option (list B) :=
  match l with
  | [] => Some []
  | a :: l' =>
      let? b := f a in
      let? bs := traverse f l' in
      Some (b :: bs)
  end.

(** ** numpy arrays *)

Module Np.

(** An [ndarray] of floats: its shape and its elements in row-major
    (C) order, which is how numpy stores a freshly built array. *)
Record ndarray : Type := mk_ndarray { shape : list nat; data : list R }.

Definition prod_shape (s : list nat) : nat := fold_right Nat.mul 1%nat s.

Definition shape_eqb (s t : list nat) : bool :=
  if list_eq_dec Nat.eq_dec s t then true else false.

(** [np.linspace(start, stop, num)] with [endpoint=True]:
    [arange(0, num) * step + start] with [step = (stop - start) / (num - 1)],
    the last element then overwritten by [stop] when [num > 1]. *)
Definition linspace (start stop : R) (num : nat) : ndarray :=
  let step := (stop - start) / INR (num - 1) in
  let y := map (fun i => INR i * step + start) (seq 0 num) in
  match num with
  | O => mk_ndarray [0%nat] []
  | S O => mk_ndarray [1%nat] [start]
  | S n => mk_ndarray [num] (firstn n y ++ [stop])
  end.

(** [np.vstack(rows)] for one-dimensional rows: the rows stacked into a
    two-dimensional array.  numpy raises [ValueError] on an empty list or
    on rows of different lengths. *)
Definition vstack (rows : list ndarray) : option ndarray :=
  match rows with
  | [] => None
  | r :: _ =>
      if forallb (fun a => shape_eqb (shape a) [length (data r)]) rows
      then Some (mk_ndarray [length rows; length (data r)]
                            (concat (map data rows)))
      else None
  end.

(** [a.flatten()]: a one-dimensional copy in row-major order. *)
Definition flatten (a : ndarray) : ndarray :=
  mk_ndarray [length (data a)] (data a).

(** [np.concatenate(arrs)] for one-dimensional arrays. *)
Definition concatenate (arrs : list ndarray) : option ndarray :=
  match arrs with
  | [] => None
  | _ =>
      if forallb (fun a => Nat.eqb (length (shape a)) 1) arrs
      then Some (mk_ndarray [length (concat (map data arrs))]
                            (concat (map data arrs)))
      else None
  end.

(** [len(a)]: the first dimension; [TypeError] on a zero-dimensional array. *)
Definition len (a : ndarray) : option nat := hd_error (shape a).

End Np.

Import Np.

(** ** Python values and broadcasting arithmetic *)

(** [dose_response] is duck-typed: the notebook applies it to numpy arrays
    (data generation) and to symbolic tensors (model specification).  The
    arithmetic it needs is the interface below; an operator may raise. *)
Class PyNumber (V : Type) : Type := {
  p_add : V -> V -> option V;
  p_sub : V -> V -> option V;
  p_mul : V -> V -> option V;
  p_div : V -> V -> option V;
  p_exp : V -> V;
  p_int : Z -> V
}.

(** A numeric value: a scalar or an array. *)
Inductive value : Type :=
| VFloat (r : R)
| VArr (a : ndarray).

(** The elements a value holds. *)
Definition elements (v : value) : list R :=
  match v with
  | VFloat r => [r]
  | VArr a => data a
  end.

(** A binary operator with scalar kernel [f], broadcast the way numpy does
    for the operand kinds that occur here: scalar with scalar, scalar with
    array (either side), and two arrays of one shape.  Two arrays of
    different shapes are outside the model. *)
Definition broadcast (f : R -> R -> option R) (u v : value) : option value :=
  match u, v with
  | VFloat a, VFloat b => option_map VFloat (f a b)
  | VFloat a, VArr b =>
      option_map (fun d => VArr (mk_ndarray (shape b) d)) (traverse (f a) (data b))
  | VArr a, VFloat b =>
      option_map (fun d => VArr (mk_ndarray (shape a) d))
                 (traverse (fun t => f t b) (data a))
  | VArr a, VArr b =>
      if shape_eqb (shape a) (shape b)
      then option_map (fun d => VArr (mk_ndarray (shape a) d))
                      (traverse (fun p => f (fst p) (snd p))
                                (combine (data a) (data b)))
      else None
  end.

(** The quotient by zero is no real number (Python raises
    [ZeroDivisionError] on floats, numpy answers [inf] or [nan]). *)
Definition div_kernel (a b : R) : option R :=
  if Req_dec_T b 0 then None else Some (a / b).

Definition py_add : value -> value -> option value := broadcast (fun a b => Some (a + b)).
Definition py_sub : value -> value -> option value := broadcast (fun a b => Some (a - b)).
Definition py_mul : value -> value -> option value := broadcast (fun a b => Some (a * b)).
Definition py_div : value -> value -> option value := broadcast div_kernel.

(** [np.exp], elementwise. *)
Definition np_exp (v : value) : value :=
  match v with
  | VFloat r => VFloat (exp r)
  | VArr a => VArr (mk_ndarray (shape a) (map exp (data a)))
  end.

#[export] Instance value_number : PyNumber value := {|
  p_add := py_add;
  p_sub := py_sub;
  p_mul := py_mul;
  p_div := py_div;
  p_exp := np_exp;
  p_int := fun z => VFloat (IZR z)
|}.

(** [v.flatten()]; a bare Python float has no such method. *)
Definition v_flatten (v : value) : option ndarray :=
  match v with
  | VFloat _ => None
  | VArr a => Some (flatten a)
  end.

(** ** The dose-response curve *)

Section DoseResponse.

Context {V : Type} `{PyNumber V}.

(** The divisor [1 + np.exp(slope * (c50 - x))] of [dose_response]. *)
Definition dose_response_denominator (x slope c50 : V) : option V :=
  let? d := p_sub c50 x in
  let? m := p_mul slope d in
  p_add (p_int 1) (p_exp m).

(** [def dose_response(x, lower, upper, slope, c50):
       return lower + (upper - lower) / (1 + np.exp(slope * (c50 - x)))] *)
Definition dose_response (x lower upper slope c50 : V) : option V :=
  let? span := p_sub upper lower in
  let? den := dose_response_denominator x slope c50 in
  let? q := p_div span den in
  p_add lower q.

End DoseResponse.

(** [dose_response] at a scalar [x] with scalar parameters, in exact real
    arithmetic. *)
Definition dose_response_float (x lower upper slope c50 : R) : option R :=
  match dose_response (VFloat x) (VFloat lower) (VFloat upper) (VFloat slope) (VFloat c50) with
  | Some (VFloat r) => Some r
  | _ => None
  end.

(** The closed form the specification names: the four-parameter sigmoid. *)
Definition sigmoid4 (lower upper slope c50 x : R) : R :=
  lower + (upper - lower) / (1 + exp (slope * (c50 - x))).

(** ** State threaded through the cells *)

(** A computation over a state [S] that may raise. *)
Definition SO (S A : Type) : Type := S -> option (A * S).

Definition ret {S A : Type} (a : A) : SO S A := fun s => Some (a, s).

Definition bind {S A B : Type} (m : SO S A) (k : A -> SO S B) : SO S B :=
  fun s =>
    match m s with
    | Some (a, s') => k a s'
    | None => None
    end.

Definition lift {S A : Type} (o : option A) : SO S A :=
  fun s => option_map (fun a => (a, s)) o.

Declare Scope so_scope.
Delimit Scope so_scope with so.
Notation "x <- e ;; k" := (bind e (fun x => k))
  (at level 61, e at next level, right associativity) : so_scope.
Notation "e ;; k" := (bind e (fun _ => k))
  (at level 61, right associativity) : so_scope.

(** ** pandas data frames *)

Inductive dtype : Type := float64 | int64.

Inductive column : Type :=
| FloatCol (l : list R)
| IntCol (l : list Z).

Definition column_dtype (c : column) : dtype :=
  match c with
  | FloatCol _ => float64
  | IntCol _ => int64
  end.

Definition column_length (c : column) : nat :=
  match c with
  | FloatCol l => length l
  | IntCol l => length l
  end.

(** Columns in insertion order, all of one length. *)
Definition DataFrame : Type := list (string * column).

(** What the notebook puts in the dict given to [pd.DataFrame]. *)
Inductive pyobj : Type :=
| ObjArray (a : ndarray)
| ObjIntList (l : list Z).

(** pandas infers [float64] for a one-dimensional float array and [int64]
    for a list of Python ints; an array of two or more dimensions is
    refused.  A zero-dimensional array (which pandas broadcasts) and an empty
    list (for which pandas does not infer [int64]) do not occur in the
    notebook and are outside what this definition models. *)
Definition to_column (o : pyobj) : option column :=
  match o with
  | ObjArray a => if Nat.eqb (length (shape a)) 1 then Some (FloatCol (data a)) else None
  | ObjIntList l => Some (IntCol l)
  end.

(** [pd.DataFrame(dict)]; [ValueError] when the columns differ in length. *)
Definition pd_DataFrame (d : list (string * pyobj)) : option DataFrame :=
  let? cols := traverse (fun kv => option_map (pair (fst kv)) (to_column (snd kv))) d in
  match cols with
  | [] => Some []
  | (_, c) :: _ =>
      if forallb (fun kc => Nat.eqb (column_length (snd kc)) (column_length c)) cols
      then Some cols
      else None
  end.

(** [df[name]]; [KeyError] on a missing column. *)
Definition df_get (df : DataFrame) (name : string) : option column :=
  option_map snd (find (fun kc => String.eqb (fst kc) name) df).

Definition nrows (df : DataFrame) : nat :=
  match df with
  | [] => 0%nat
  | (_, c) :: _ => column_length c
  end.

(** ** Model specifications *)

Inductive family : Type := Normal | HalfNormal | Exponential | Gamma.

(** Symbolic tensors: what the arithmetic of a model block builds. *)
Inductive term : Type :=
| TConst (c : Z)
| TRV (name : string)
| TColumn (col : string)
| TTake (t : term) (col : string)
| TAdd (a b : term)
| TSub (a b : term)
| TMul (a b : term)
| TDiv (a b : term)
| TExp (a : term).

#[export] Instance term_number : PyNumber term := {|
  p_add := fun a b => Some (TAdd a b);
  p_sub := fun a b => Some (TSub a b);
  p_mul := fun a b => Some (TMul a b);
  p_div := fun a b => Some (TDiv a b);
  p_exp := TExp;
  p_int := TConst
|}.

(** One random variable of a model: [pm.<family>(name, **params,
    shape=..., observed=...)].  A variable declared without [shape] is a
    scalar and has shape [[]]. *)
Record rv : Type := mk_rv {
  rv_name : string;
  rv_family : family;
  rv_params : list (string * term);
  rv_shape : list nat;
  rv_observed : option term
}.

(** A model is the list of its variables in order of declaration. *)
Definition pm_model : Type := list rv.

(** Inside [with pm.Model() as m:] every distribution call registers its
    variable with the model; a name used twice is a [ValueError]. *)
Definition pm_dist (f : family) (name : string) (params : list (string * term))
    (shp : list nat) (observed : option term) : SO pm_model term :=
  fun m =>
    if existsb (String.eqb name) (map rv_name m)
    then None
    else Some (TRV name, m ++ [mk_rv name f params shp observed]).

Definition pm_Model (body : SO pm_model unit) : option pm_model :=
  option_map snd (body []).

(** [df[col]] used as a tensor. *)
Definition df_column (df : DataFrame) (col : string) : option term :=
  let? _ := df_get df col in Some (TColumn col).

(** [t[df[col].values]]: indexing by a column, which must hold integers.
    The check of the index values against the length of [t], which happens
    when test values are computed, is not modelled: the properties below that
    build a model assume indices in range. *)
Definition take (df : DataFrame) (t : term) (col : string) : option term :=
  match df_get df col with
  | Some (IntCol _) => Some (TTake t col)
  | _ => None
  end.

(** [with pm.Model() as model:] -- the first version. *)
Definition model_body (df : DataFrame) : SO pm_model unit :=
  (lower <- pm_dist Normal "lower" [("mu", TConst 0); ("sd", TConst 10)] [3%nat] None ;;
   upper <- pm_dist Normal "upper" [("mu", TConst 10); ("sd", TConst 10)] [3%nat] None ;;
   c50 <- pm_dist Normal "c50" [("mu", TConst 0); ("sd", TConst 10)] [3%nat] None ;;
   slope <- pm_dist HalfNormal "slope" [("sd", TConst 10)] [3%nat] None ;;
   x <- lift (df_column df "concentration") ;;
   l <- lift (take df lower "molecule") ;;
   u <- lift (take df upper "molecule") ;;
   s <- lift (take df slope "molecule") ;;
   c <- lift (take df c50 "molecule") ;;
   mu <- lift (dose_response x l u s c) ;;
   sd <- pm_dist HalfNormal "sd" [("sd", TConst 10)] [3%nat] None ;;
   sdi <- lift (take df sd "molecule") ;;
   obs <- lift (df_column df "response") ;;
   pm_dist Normal "like" [("mu", mu); ("sd", sdi)] [] (Some obs) ;;
   ret tt)%so.

(** [with pm.Model() as model_v2:] -- group priors on every curve parameter. *)
Definition model_v2_body (df : DataFrame) : SO pm_model unit :=
  (lower_mu <- pm_dist Normal "lower_mu" [("mu", TConst 0); ("sd", TConst 3)] [] None ;;
   lower_sd <- pm_dist Exponential "lower_sd" [("lam", TConst 5)] [] None ;;
   lower <- pm_dist Normal "lower" [("mu", lower_mu); ("sd", lower_sd)] [3%nat] None ;;
   upper_mu <- pm_dist Normal "upper_mu" [("mu", TConst 7); ("sd", TConst 3)] [] None ;;
   upper_sd <- pm_dist Exponential "upper_sd" [("lam", TConst 5)] [] None ;;
   upper <- pm_dist Normal "upper" [("mu", upper_mu); ("sd", upper_sd)] [3%nat] None ;;
   c50_mu <- pm_dist Normal "c50_mu" [("mu", TConst 0); ("sd", TConst 3)] [] None ;;
   c50_sd <- pm_dist Exponential "c50_sd" [("lam", TConst 5)] [] None ;;
   c50 <- pm_dist Normal "c50" [("mu", c50_mu); ("sd", c50_sd)] [3%nat] None ;;
   slope_sd <- pm_dist Exponential "slope_sd" [("lam", TConst 5)] [] None ;;
   slope <- pm_dist HalfNormal "slope" [("sd", slope_sd)] [3%nat] None ;;
   x <- lift (df_column df "concentration") ;;
   l <- lift (take df lower "molecule") ;;
   u <- lift (take df upper "molecule") ;;
   s <- lift (take df slope "molecule") ;;
   c <- lift (take df c50 "molecule") ;;
   mu <- lift (dose_response x l u s c) ;;
   sd <- pm_dist HalfNormal "sd" [("sd", TConst 10)] [3%nat] None ;;
   sdi <- lift (take df sd "molecule") ;;
   obs <- lift (df_column df "response") ;;
   pm_dist Normal "like" [("mu", mu); ("sd", sdi)] [] (Some obs) ;;
   ret tt)%so.

(** [with pm.Model() as model_v3:] -- lower and upper switched to Gamma. *)
Definition model_v3_body (df : DataFrame) : SO pm_model unit :=
  (lower_mu <- pm_dist HalfNormal "lower_mu" [("sd", TConst 10)] [] None ;;
   lower_sd <- pm_dist Exponential "lower_sd" [("lam", TConst 5)] [] None ;;
   lower <- pm_dist Gamma "lower" [("mu", lower_mu); ("sd", lower_sd)] [3%nat] None ;;
   upper_mu <- pm_dist HalfNormal "upper_mu" [("sd", TConst 10)] [] None ;;
   upper_sd <- pm_dist Exponential "upper_sd" [("lam", TConst 5)] [] None ;;
   upper <- pm_dist Gamma "upper" [("mu", upper_mu); ("sd", upper_sd)] [3%nat] None ;;
   c50_mu <- pm_dist Normal "c50_mu" [("mu", TConst 0); ("sd", TConst 3)] [] None ;;
   c50_sd <- pm_dist Exponential "c50_sd" [("lam", TConst 5)] [] None ;;
   c50 <- pm_dist Normal "c50" [("mu", c50_mu); ("sd", c50_sd)] [3%nat] None ;;
   slope_sd <- pm_dist Exponential "slope_sd" [("lam", TConst 5)] [] None ;;
   slope <- pm_dist HalfNormal "slope" [("sd", slope_sd)] [3%nat] None ;;
   x <- lift (df_column df "concentration") ;;
   l <- lift (take df lower "molecule") ;;
   u <- lift (take df upper "molecule") ;;
   s <- lift (take df slope "molecule") ;;
   c <- lift (take df c50 "molecule") ;;
   mu <- lift (dose_response x l u s c) ;;
   sd <- pm_dist HalfNormal "sd" [("sd", TConst 10)] [3%nat] None ;;
   sdi <- lift (take df sd "molecule") ;;
   obs <- lift (df_column df "response") ;;
   pm_dist Normal "like" [("mu", mu); ("sd", sdi)] [] (Some obs) ;;
   ret tt)%so.

(** *** Pooling structure of a model *)

(** The random variables a tensor mentions. *)
Fixpoint term_rvs (t : term) : list string :=
  match t with
  | TConst _ => []
  | TRV name => [name]
  | TColumn _ => []
  | TTake t' _ => term_rvs t'
  | TAdd a b | TSub a b | TMul a b | TDiv a b => term_rvs a ++ term_rvs b
  | TExp a => term_rvs a
  end.

Definition lookup_rv (m : pm_model) (name : string) : option rv :=
  find (fun r => String.eqb (rv_name r) name) m.

(** A group-level variable: a latent scalar of the model, shared by all
    molecules. *)
Definition is_group_level (m : pm_model) (name : string) : bool :=
  match lookup_rv m name with
  | Some r =>
      match rv_shape r, rv_observed r with
      | [], None => true
      | _, _ => false
      end
  | None => false
  end.

(** One variable per molecule (three of them). *)
Definition is_per_molecule (r : rv) : bool :=
  if list_eq_dec Nat.eq_dec (rv_shape r) [3%nat] then true else false.

(** The prior of [name] has a parameter that is itself a group-level
    variable of the model. *)
Definition has_hyperprior (m : pm_model) (name : string) : bool :=
  match lookup_rv m name with
  | Some r =>
      is_per_molecule r &&
      existsb (fun p => existsb (is_group_level m) (term_rvs (snd p))) (rv_params r)
  | None => false
  end.

(** The prior of [name] has constants for all its parameters. *)
Definition has_fixed_prior (m : pm_model) (name : string) : bool :=
  match lookup_rv m name with
  | Some r =>
      is_per_molecule r &&
      forallb (fun p => match term_rvs (snd p) with [] => true | _ => false end) (rv_params r)
  | None => false
  end.

Definition curve_parameters : list string := ["lower"; "upper"; "c50"; "slope"].

Definition partial_pooling (m : pm_model) : bool :=
  forallb (has_hyperprior m) curve_parameters.

Definition no_pooling (m : pm_model) : bool :=
  forallb (has_fixed_prior m) curve_parameters.

(** ** The notebook *)

(** What the external sampler hands back; its content is not modelled. *)
Inductive trace : Type := Trace (m : pm_model) (draws : Z).

(** Calls that leave the notebook: plotting and sampling. *)
Inductive event : Type :=
| EScatter (x : ndarray) (y : value)
| EShow
| ESample (m : pm_model) (draws : Z)
| ETraceplot (t : trace) (varnames : list string).

(** The position in the generator's stream and the calls made so far. *)
Record nb_state : Type := mk_state { rng_pos : nat; events : list event }.

Definition emit (e : event) : SO nb_state unit :=
  fun st => Some (tt, mk_state (rng_pos st) (events st ++ [e])).

Definition plt_scatter (x : ndarray) (y : value) : SO nb_state unit := emit (EScatter x y).
Definition plt_show : SO nb_state unit := emit EShow.

(** [pm.sample(draws)] inside [with m:]. *)
Definition pm_sample (m : pm_model) (draws : Z) : SO nb_state trace :=
  (emit (ESample m draws) ;; ret (Trace m draws))%so.

Definition pm_traceplot (t : trace) (varnames : list string) : SO nb_state unit :=
  emit (ETraceplot t varnames).

Definition is_sample (e : event) : bool :=
  match e with
  | ESample _ _ => true
  | _ => false
  end.

(** The top-level names the cells bind. *)
Record env : Type := mk_env {
  x1 : ndarray; x2 : ndarray; x3 : ndarray;
  y1 : value; y2 : value; y3 : value;
  df : DataFrame;
  model : pm_model; model_v2 : pm_model; model_v3 : pm_model;
  trace_v1 : trace; trace_v2 : trace; trace_v3 : trace
}.

Section Notebook.

(** The standard normal variates the global generator will produce, in the
    order it produces them. *)
Variable z : nat -> R.

(** [np.random.normal(loc, scale, size)]; a negative scale is a
    [ValueError]. *)
Definition np_random_normal (loc scale : R) (size : list nat) : SO nb_state ndarray :=
  fun st =>
    if Rlt_dec scale 0 then None
    else
      let n := prod_shape size in
      Some (mk_ndarray size (map (fun i => loc + scale * z (rng_pos st + i)) (seq 0 n)),
            mk_state (rng_pos st + n) (events st)).

(** [def noise(x, sd): return np.random.normal(0, scale=sd, size=x.shape)] *)
Definition noise (x : ndarray) (sd : R) : SO nb_state ndarray :=
  np_random_normal 0 sd (shape x).

(** [x1 = np.vstack([np.linspace(-2, 2, 10)] * 5)], and the same for
    [x2] and [x3]. *)
Definition cell_grids : option (ndarray * ndarray * ndarray) :=
  let? a := vstack (repeat (linspace (-2) 2 10) 5) in
  let? b := vstack (repeat (linspace (-2) 2 10) 5) in
  let? c := vstack (repeat (linspace (-2) 2 10) 5) in
  Some (a, b, c).

(** [y = dose_response(x, ...) + noise(x, sd)] *)
Definition response (x : ndarray) (lower upper slope c50 sd : R) : SO nb_state value :=
  (d <- lift (dose_response (VArr x) (VFloat lower) (VFloat upper) (VFloat slope) (VFloat c50)) ;;
   n <- noise x sd ;;
   lift (py_add d (VArr n)))%so.

Definition cell_responses (a b c : ndarray) : SO nb_state (value * value * value) :=
  (r1 <- response a 3 6 4 0 (1 / 2) ;;
   r2 <- response b (5 / 2) 8 3 (3 / 2) (1 / 2) ;;
   r3 <- response c (16 / 5) (17 / 5) (3 / 2) 0 (1 / 2) ;;
   plt_scatter a r1 ;;
   plt_scatter b r2 ;;
   plt_scatter c r3 ;;
   ret (r1, r2, r3))%so.

(** [df = pd.DataFrame({...})] *)
Definition cell_frame (a b c : ndarray) (r1 r2 r3 : value) : option DataFrame :=
  let? conc := concatenate [flatten a; flatten b; flatten c] in
  let? f1 := v_flatten r1 in
  let? f2 := v_flatten r2 in
  let? f3 := v_flatten r3 in
  let? resp := concatenate [f1; f2; f3] in
  let? n1 := len (flatten a) in
  let? n2 := len (flatten b) in
  let? n3 := len (flatten c) in
  pd_DataFrame
    [("concentration", ObjArray conc);
     ("response", ObjArray resp);
     ("molecule", ObjIntList (repeat 0%Z n1 ++ repeat 1%Z n2 ++ repeat 2%Z n3))].

(** The code cells in order.  The last two cells only read
    [trace_v3["upper"]] and make no call that is recorded. *)
Definition notebook : SO nb_state env :=
  (g <- lift cell_grids ;;
   let '(a, b, c) := g in
   r <- cell_responses a b c ;;
   let '(r1, r2, r3) := r in
   d <- lift (cell_frame a b c r1 r2 r3) ;;
   m1 <- lift (pm_Model (model_body d)) ;;
   t1 <- pm_sample m1 2000 ;;
   pm_traceplot t1 ["upper"] ;;
   plt_show ;;
   m2 <- lift (pm_Model (model_v2_body d)) ;;
   t2 <- pm_sample m2 2000 ;;
   pm_traceplot t2 ["upper"] ;;
   m3 <- lift (pm_Model (model_v3_body d)) ;;
   t3 <- pm_sample m3 2000 ;;
   pm_traceplot t3 ["upper"] ;;
   ret (mk_env a b c r1 r2 r3 d m1 m2 m3 t1 t2 t3))%so.

Definition initial_state : nb_state := mk_state 0 [].

Definition run_notebook : option (env * nb_state) := notebook initial_state.

End Notebook.

(** ** The values the cells compute

    Closed forms of what the data cells bind, used to state the run of the
    notebook; that the cells yield them is proved below. *)

(** Model specifications do not read the data, only the column names and
    the kind of the index column; this is the smallest frame they accept. *)
Definition schema_frame : DataFrame :=
  [("concentration", FloatCol []); ("response", FloatCol []); ("molecule", IntCol [])].

Definition built (body : DataFrame -> SO pm_model unit) : pm_model :=
  match pm_Model (body schema_frame) with
  | Some m => m
  | None => []
  end.

Definition model_rvs : pm_model := Eval lazy in built model_body.
Definition model_v2_rvs : pm_model := Eval lazy in built model_v2_body.
Definition model_v3_rvs : pm_model := Eval lazy in built model_v3_body.

Definition grid_row : ndarray := linspace (-2) 2 10.

Definition grid : ndarray :=
  mk_ndarray [5; 10]%nat (concat (map data (repeat grid_row 5))).

Definition noisy_curve (z : nat -> R) (pos : nat) (lower upper slope c50 sd : R) : value :=
  VArr (mk_ndarray [5; 10]%nat
          (map (fun p => fst p + snd p)
               (combine (map (sigmoid4 lower upper slope c50) (data grid))
                        (map (fun i => 0 + sd * z (pos + i)%nat) (seq 0 50))))).

Definition curve1 (z : nat -> R) : value := noisy_curve z 0 3 6 4 0 (1 / 2).
Definition curve2 (z : nat -> R) : value := noisy_curve z 50 (5 / 2) 8 3 (3 / 2) (1 / 2).
Definition curve3 (z : nat -> R) : value := noisy_curve z 100 (16 / 5) (17 / 5) (3 / 2) 0 (1 / 2).

Definition frame (z : nat -> R) : DataFrame :=
  [("concentration", FloatCol (concat [data grid; data grid; data grid]));
   ("response", FloatCol (concat [elements (curve1 z); elements (curve2 z); elements (curve3 z)]));
   ("molecule", IntCol (repeat 0%Z 50 ++ repeat 1%Z 50 ++ repeat 2%Z 50))].

Definition final_env (z : nat -> R) : env :=
  mk_env grid grid grid (curve1 z) (curve2 z) (curve3 z) (frame z)
         model_rvs model_v2_rvs model_v3_rvs
         (Trace model_rvs 2000) (Trace model_v2_rvs 2000) (Trace model_v3_rvs 2000).

Definition final_events (z : nat -> R) : list event :=
  [EScatter grid (curve1 z); EScatter grid (curve2 z); EScatter grid (curve3 z);
   ESample model_rvs 2000; ETraceplot (Trace model_rvs 2000) ["upper"]; EShow;
   ESample model_v2_rvs 2000; ETraceplot (Trace model_v2_rvs 2000) ["upper"];
   ESample model_v3_rvs 2000; ETraceplot (Trace model_v3_rvs 2000) ["upper"]].


(** A frame the model blocks accept: the three columns exist and
    [molecule] can be used as an index. *)
Definition frame_ok (d : DataFrame) : Prop :=
  (exists c, df_get d "concentration" = Some c) /\
  (exists c, df_get d "response" = Some c) /\
  (exists l, df_get d "molecule" = Some (IntCol l)).


(** ** Vocabulary of the properties *)

(** Properties of a partial real function, as [dose_response_float] is. *)
Definition strictly_increasing (f : R -> option R) : Prop :=
  forall a b, a < b -> exists fa fb, f a = Some fa /\ f b = Some fb /\ fa < fb.

Definition tends_to_at_left (f : R -> option R) (l : R) : Prop :=
  forall eps, 0 < eps ->
    exists m, forall x, x < m -> exists fx, f x = Some fx /\ Rabs (fx - l) < eps.

Definition tends_to_at_right (f : R -> option R) (l : R) : Prop :=
  forall eps, 0 < eps ->
    exists m, forall x, m < x -> exists fx, f x = Some fx /\ Rabs (fx - l) < eps.

Definition activation_curve (lower upper slope c50 : R) : Prop :=
  let f := fun x => dose_response_float x lower upper slope c50 in
  strictly_increasing f /\ tends_to_at_left f lower /\ tends_to_at_right f upper.

(** [n] evenly spaced points from [a] to [b], both ends included. *)
Definition evenly_spaced (a b : R) (n : nat) : list R :=
  map (fun i => a + INR i * ((b - a) / INR (n - 1))) (seq 0 n).

(** Every column of a frame holds floats. *)
Definition all_float (d : DataFrame) : bool :=
  forallb (fun kc => match column_dtype (snd kc) with
                     | float64 => true
                     | int64 => false
                     end) d.

(** The (concentration, response) pairs of the rows of molecule [k], in
    row order. *)
Definition molecule_rows (conc resp : list R) (mol : list Z) (k : Z) : list (R * R) :=
  map fst (filter (fun r => Z.eqb (snd r) k) (combine (combine conc resp) mol)).


(** ** Further vocabulary

    Notions used by the properties of the data pipeline and of the model
    specifications. *)

(** An array holds as many elements as its shape announces; every array
    numpy builds does. *)
Definition well_shaped (a : ndarray) : Prop := prod_shape (shape a) = length (data a).

(** Two lists combined position by position, as broadcasting combines two
    arrays of one shape. *)
Definition zip_with (f : R -> R -> R) (a b : list R) : list R :=
  map (fun p => f (fst p) (snd p)) (combine a b).

(** The noise-free curve of molecule [k], with the parameters the notebook
    passes when it builds [y1], [y2] and [y3]. *)
Definition synthetic_curve (k : Z) (x : R) : option R :=
  match k with
  | 0%Z => dose_response_float x 3 6 4 0
  | 1%Z => dose_response_float x (5 / 2) 8 3 (3 / 2)
  | 2%Z => dose_response_float x (16 / 5) (17 / 5) (3 / 2) 0
  | _ => None
  end.

(** [l[i]] for an integer [i]: a negative index counts from the end, an
    index outside [-n, n) is an [IndexError]. *)
Definition np_index (l : list R) (i : Z) : option R :=
  let n := Z.of_nat (length l) in
  if (0 <=? i)%Z then nth_error l (Z.to_nat i)
  else if (- n <=? i)%Z then nth_error l (Z.to_nat (i + n))
  else None.

(** A column read as an array; integers are converted to floats when they
    enter float arithmetic. *)
Definition column_value (c : column) : value :=
  match c with
  | FloatCol l => VArr (mk_ndarray [length l] l)
  | IntCol l => VArr (mk_ndarray [length l] (map IZR l))
  end.

(** Values given to the random variables of a model, by name. *)
Definition assignment : Type := list (string * value).

(** The value assigned to [name]; a variable without a value is an error. *)
Definition assigned (rho : assignment) (name : string) : option value :=
  option_map snd (find (fun kv => String.eqb (fst kv) name) rho).

(** The value of a symbolic tensor once its variables have values: what
    the sampler computes each time it evaluates the model.  [t[df[col].values]]
    picks from a one-dimensional array by the integers of the column. *)
Fixpoint eval_term (d : DataFrame) (rho : assignment) (t : term) : option value :=
  match t with
  | TConst c => Some (p_int c)
  | TRV name => assigned rho name
  | TColumn col => option_map column_value (df_get d col)
  | TTake t' col =>
      let? v := eval_term d rho t' in
      match v, df_get d col with
      | VArr a, Some (IntCol idx) =>
          if Nat.eqb (length (shape a)) 1
          then option_map (fun l => VArr (mk_ndarray [length idx] l))
                          (traverse (np_index (data a)) idx)
          else None
      | _, _ => None
      end
  | TAdd a b => let? x := eval_term d rho a in let? y := eval_term d rho b in p_add x y
  | TSub a b => let? x := eval_term d rho a in let? y := eval_term d rho b in p_sub x y
  | TMul a b => let? x := eval_term d rho a in let? y := eval_term d rho b in p_mul x y
  | TDiv a b => let? x := eval_term d rho a in let? y := eval_term d rho b in p_div x y
  | TExp a => option_map p_exp (eval_term d rho a)
  end.

(** The [mu] argument of the observed variable ["like"]. *)
Definition likelihood_mean (m : pm_model) : option term :=
  let? r := lookup_rv m "like" in
  option_map snd (find (fun p => String.eqb (fst p) "mu") (rv_params r)).

(** The tensor [dose_response] builds in the model blocks. *)
Definition mean_term : term :=
  Eval lazy in
    match dose_response (TColumn "concentration")
                        (TTake (TRV "lower") "molecule") (TTake (TRV "upper") "molecule")
                        (TTake (TRV "slope") "molecule") (TTake (TRV "c50") "molecule") with
    | Some t => t
    | None => TConst 0
    end.

(** The parameters the synthetic data were generated with, one entry per
    molecule. *)
Definition true_parameters : assignment :=
  [("lower", VArr (mk_ndarray [3%nat] [3; 5 / 2; 16 / 5]));
   ("upper", VArr (mk_ndarray [3%nat] [6; 8; 17 / 5]));
   ("slope", VArr (mk_ndarray [3%nat] [4; 3; 3 / 2]));
   ("c50", VArr (mk_ndarray [3%nat] [0; 3 / 2; 0]))].

(** A two-row frame, used to instantiate statements about frames. *)
Definition toy_frame : DataFrame :=
  [("concentration", FloatCol [0; 1]); ("response", FloatCol [4; 5]);
   ("molecule", IntCol [0%Z; 2%Z])].

(** ** The binary64 reading

    What the program computes: the same [dose_response], at IEEE 754
    binary64 floats with round-to-nearest-even ([PrimFloat]).  numpy's
    float arithmetic never raises; a division by zero yields an infinity or
    a nan. *)

(** A Python [int] entering float arithmetic. *)
Definition b64_of_Z (z : Z) : float :=
  match z with
  | Z0 => PrimFloat.zero
  | Zpos _ => PrimFloat.of_uint63 (Uint63.of_Z z)
  | Zneg _ => PrimFloat.opp (PrimFloat.of_uint63 (Uint63.of_Z (Z.opp z)))
  end.

(** Float arithmetic; [fexp] is [np.exp], the exponential of the platform's
    C library, whose results no standard fixes bit for bit. *)
Definition b64_number (fexp : float -> float) : PyNumber float := {|
  p_add := fun a b => Some (a + b)%float;
  p_sub := fun a b => Some (a - b)%float;
  p_mul := fun a b => Some (a * b)%float;
  p_div := fun a b => Some (a / b)%float;
  p_exp := fexp;
  p_int := b64_of_Z
|}.

(** [dose_response] on floats. *)
Definition dose_response_b64 (fexp : float -> float)
    (x lower upper slope c50 : float) : option float :=
  @dose_response float (b64_number fexp) x lower upper slope c50.

(** A stand-in for [np.exp], used where a statement needs a concrete run:
    the Taylor polynomial of degree 14 at [x / 4096], squared twelve times.
    It agrees with the exponential to about twelve significant digits and
    returns exactly 1 at both zeros, as every C library does; it is not
    claimed to agree with any library in the last bits.  The runs below that
    use it are chosen so that the result does not depend on those bits. *)
Definition exp_series (t : float) : float :=
  (1 + t * fold_right (fun d acc => 1 + t / d * acc) 1
                      [2; 3; 4; 5; 6; 7; 8; 9; 10; 11; 12; 13; 14])%float.

Fixpoint square_times (n : nat) (p : float) : float :=
  match n with
  | O => p
  | S n' => square_times n' (p * p)%float
  end.

Definition b64_exp (x : float) : float :=
  if PrimFloat.is_nan x then x
  else if (x <? -746)%float then 0%float
  else if (710 <? x)%float then PrimFloat.infinity
  else square_times 12 (exp_series (x / 4096)%float).

(** Plus or minus zero. *)
Definition is_signed_zero (x : float) : Prop :=
  x = PrimFloat.zero \/ x = PrimFloat.neg_zero.


(** * Properties *)

(** ** Arithmetic on values *)

Lemma traverse_total {A B : Type} (g : A -> B) (l : list A) :
  traverse (fun a => Some (g a)) l = Some (map g l).
Proof.
  induction l as [|a l IH]; cbn; [reflexivity|].
  rewrite IH. reflexivity.
Qed.

Lemma traverse_ext_in {A B : Type} (f g : A -> option B) (l : list A) :
  (forall a, In a l -> f a = g a) -> traverse f l = traverse g l.
Proof.
  induction l as [|a l IH]; intros Hfg; cbn; [reflexivity|].
  rewrite (Hfg a (or_introl eq_refl)), IH; [reflexivity|].
  intros b Hb. apply Hfg. right. exact Hb.
Qed.

Lemma div_kernel_nonzero (a b : R) : b <> 0 -> div_kernel a b = Some (a / b).
Proof.
  intros Hb. unfold div_kernel. destruct (Req_dec_T b 0); [contradiction|reflexivity].
Qed.

Lemma traverse_div (a : R) (l : list R) :
  Forall (fun b => 0 < b) l ->
  traverse (div_kernel a) l = Some (map (fun b => a / b) l).
Proof.
  intros Hpos. rewrite <- traverse_total.
  apply traverse_ext_in. intros b Hb.
  apply div_kernel_nonzero.
  rewrite Forall_forall in Hpos. specialize (Hpos b Hb). lra.
Qed.

Lemma denominator_pos (slope c50 x : R) : 0 < 1 + exp (slope * (c50 - x)).
Proof. pose proof (exp_pos (slope * (c50 - x))). lra. Qed.

Lemma denominator_float (x slope c50 : R) :
  dose_response_denominator (VFloat x) (VFloat slope) (VFloat c50)
  = Some (VFloat (1 + exp (slope * (c50 - x)))).
Proof. reflexivity. Qed.

Lemma denominator_array (x : ndarray) (slope c50 : R) :
  dose_response_denominator (VArr x) (VFloat slope) (VFloat c50)
  = Some (VArr (mk_ndarray (shape x)
                           (map (fun xi => 1 + exp (slope * (c50 - xi))) (data x)))).
Proof.
  unfold dose_response_denominator; cbn.
  rewrite traverse_total; cbn.
  rewrite traverse_total; cbn.
  rewrite traverse_total; cbn.
  rewrite !map_map. reflexivity.
Qed.

Lemma dose_response_scalar (x lower upper slope c50 : R) :
  dose_response (VFloat x) (VFloat lower) (VFloat upper) (VFloat slope) (VFloat c50)
  = Some (VFloat (sigmoid4 lower upper slope c50 x)).
Proof.
  unfold dose_response. cbn [p_sub value_number py_sub broadcast option_map obind].
  rewrite denominator_float.
  cbn [p_div p_add value_number py_div py_add broadcast option_map obind].
  rewrite div_kernel_nonzero by (pose proof (denominator_pos slope c50 x); lra).
  reflexivity.
Qed.

Lemma dose_response_array (x : ndarray) (lower upper slope c50 : R) :
  dose_response (VArr x) (VFloat lower) (VFloat upper) (VFloat slope) (VFloat c50)
  = Some (VArr (mk_ndarray (shape x) (map (sigmoid4 lower upper slope c50) (data x)))).
Proof.
  unfold dose_response. cbn [p_sub value_number py_sub broadcast option_map obind].
  rewrite denominator_array.
  cbn [p_div p_add value_number py_div py_add broadcast option_map obind shape data].
  rewrite traverse_div.
  - cbn [option_map obind shape data]. rewrite traverse_total, !map_map. reflexivity.
  - apply Forall_forall. intros d Hd. apply in_map_iff in Hd.
    destruct Hd as [xi [<- _]]. apply denominator_pos.
Qed.

Lemma dose_response_float_eq (x lower upper slope c50 : R) :
  dose_response_float x lower upper slope c50 = Some (sigmoid4 lower upper slope c50 x).
Proof. unfold dose_response_float. rewrite dose_response_scalar. reflexivity. Qed.

(** ** The curve over the reals *)

Lemma div_lt_bound (a b c : R) : 0 < b -> a < c * b -> a / b < c.
Proof.
  intros Hb Hlt.
  assert (Heq : a / b * b = a) by (field; lra).
  nra.
Qed.

Lemma div_pos_lt (a b : R) : 0 < a -> 1 < b -> 0 < a / b < a.
Proof.
  intros Ha Hb. split.
  - apply Rdiv_lt_0_compat; lra.
  - apply div_lt_bound; nra.
Qed.

Lemma exp_gt_id (t : R) : t < exp t.
Proof. pose proof (exp_ineq1_le t). lra. Qed.

Lemma sigmoid4_increasing (lower upper slope c50 a b : R) :
  0 < slope -> lower < upper -> a < b ->
  sigmoid4 lower upper slope c50 a < sigmoid4 lower upper slope c50 b.
Proof.
  intros Hs Hlu Hab. unfold sigmoid4.
  assert (Hexp : exp (slope * (c50 - b)) < exp (slope * (c50 - a)))
    by (apply exp_increasing; nra).
  pose proof (exp_pos (slope * (c50 - b))) as Hb.
  apply Rplus_lt_compat_l.
  unfold Rdiv. apply Rmult_lt_compat_l; [lra|].
  apply Rinv_lt_contravar; [nra|lra].
Qed.

Lemma sigmoid4_tends_to_lower (lower upper slope c50 eps : R) :
  0 < slope -> lower < upper -> 0 < eps ->
  exists M, forall x, x < M -> Rabs (sigmoid4 lower upper slope c50 x - lower) < eps.
Proof.
  intros Hs Hlu He.
  set (K := (upper - lower) / eps).
  assert (HK : 0 < K) by (apply Rdiv_lt_0_compat; lra).
  assert (HKe : K * eps = upper - lower) by (unfold K; field; lra).
  exists (c50 - K / slope). intros x Hx.
  assert (Ht : K < slope * (c50 - x)).
  { assert (Hq : K / slope * slope = K) by (field; lra). nra. }
  pose proof (exp_gt_id (slope * (c50 - x))) as Hexp.
  unfold sigmoid4.
  replace (lower + (upper - lower) / (1 + exp (slope * (c50 - x))) - lower)
    with ((upper - lower) / (1 + exp (slope * (c50 - x)))) by ring.
  rewrite Rabs_pos_eq.
  - apply div_lt_bound; nra.
  - apply Rlt_le, Rdiv_lt_0_compat; lra.
Qed.

Lemma sigmoid4_tends_to_upper (lower upper slope c50 eps : R) :
  0 < slope -> lower < upper -> 0 < eps ->
  exists M, forall x, M < x -> Rabs (sigmoid4 lower upper slope c50 x - upper) < eps.
Proof.
  intros Hs Hlu He.
  set (K := (upper - lower) / eps).
  assert (HK : 0 < K) by (apply Rdiv_lt_0_compat; lra).
  assert (HKe : K * eps = upper - lower) by (unfold K; field; lra).
  exists (c50 + K / slope). intros x Hx.
  assert (Ht : K < slope * (x - c50)).
  { assert (Hq : K / slope * slope = K) by (field; lra). nra. }
  pose proof (exp_gt_id (slope * (x - c50))) as Hexp.
  pose proof (exp_pos (slope * (c50 - x))) as Hpos.
  assert (Hinv : exp (slope * (c50 - x)) * exp (slope * (x - c50)) = 1).
  { rewrite <- exp_plus. replace (slope * (c50 - x) + slope * (x - c50)) with 0 by ring.
    apply exp_0. }
  set (e := exp (slope * (c50 - x))) in *.
  set (E := exp (slope * (x - c50))) in *.
  assert (Hsmall : (upper - lower) * e < eps) by nra.
  unfold sigmoid4. fold e.
  replace (lower + (upper - lower) / (1 + e) - upper)
    with (- ((upper - lower) * e / (1 + e))) by (field; lra).
  rewrite Rabs_Ropp, Rabs_pos_eq.
  - apply div_lt_bound; nra.
  - apply Rlt_le, Rdiv_lt_0_compat; nra.
Qed.

Lemma sigmoid4_midpoint (lower upper slope c50 : R) :
  sigmoid4 lower upper slope c50 c50 = (lower + upper) / 2.
Proof.
  unfold sigmoid4.
  replace (slope * (c50 - c50)) with 0 by ring.
  rewrite exp_0. field.
Qed.

Lemma sigmoid4_bounds (lower upper slope c50 x : R) :
  lower < upper ->
  lower < sigmoid4 lower upper slope c50 x < upper.
Proof.
  intros Hlu. unfold sigmoid4.
  pose proof (exp_pos (slope * (c50 - x))) as Hpos.
  destruct (div_pos_lt (upper - lower) (1 + exp (slope * (c50 - x)))); lra.
Qed.

Lemma sigmoid4_flat (lower slope c50 x : R) :
  sigmoid4 lower lower slope c50 x = lower.
Proof.
  unfold sigmoid4. pose proof (denominator_pos slope c50 x). field. lra.
Qed.

(** ** Running the cells *)

Lemma cell_grids_eq : cell_grids = Some (grid, grid, grid).
Proof. reflexivity. Qed.

Lemma response_eq (z : nat -> R) (x : ndarray) (lower upper slope c50 sd : R) (st : nb_state) :
  0 <= sd ->
  response z x lower upper slope c50 sd st
  = Some (VArr (mk_ndarray (shape x)
                  (map (fun p => fst p + snd p)
                       (combine (map (sigmoid4 lower upper slope c50) (data x))
                                (map (fun i => 0 + sd * z (rng_pos st + i)%nat)
                                     (seq 0 (prod_shape (shape x))))))),
          mk_state (rng_pos st + prod_shape (shape x)) (events st)).
Proof.
  intros Hsd. unfold response, bind, lift.
  rewrite dose_response_array. cbn [option_map].
  unfold noise, np_random_normal.
  destruct (Rlt_dec sd 0) as [Hneg|_]; [lra|].
  unfold py_add, broadcast. cbn [shape data].
  unfold shape_eqb. destruct (list_eq_dec Nat.eq_dec (shape x) (shape x)) as [_|Hne];
    [|contradiction].
  rewrite traverse_total. reflexivity.
Qed.

Lemma cell_responses_eq (z : nat -> R) :
  cell_responses z grid grid grid initial_state
  = Some ((curve1 z, curve2 z, curve3 z),
          mk_state 150 [EScatter grid (curve1 z); EScatter grid (curve2 z);
                        EScatter grid (curve3 z)]).
Proof.
  unfold cell_responses, bind.
  rewrite response_eq by lra.
  rewrite response_eq by lra.
  rewrite response_eq by lra.
  reflexivity.
Qed.

Lemma grid_size : length (data grid) = 50%nat.
Proof. reflexivity. Qed.

Lemma curve_size (z : nat -> R) (pos : nat) (lower upper slope c50 sd : R) :
  length (elements (noisy_curve z pos lower upper slope c50 sd)) = 50%nat.
Proof.
  unfold noisy_curve, elements. cbn [data].
  rewrite length_map, length_combine, !length_map, length_seq, grid_size. reflexivity.
Qed.

Lemma concatenate_flat3 (a b c : ndarray) :
  concatenate [flatten a; flatten b; flatten c]
  = Some (mk_ndarray [length (concat [data a; data b; data c])]
                     (concat [data a; data b; data c])).
Proof. reflexivity. Qed.

Lemma pd_DataFrame_three (k1 k2 k3 : string) (a b : ndarray) (l : list Z) :
  length (shape a) = 1%nat -> length (shape b) = 1%nat ->
  length (data b) = length (data a) -> length l = length (data a) ->
  pd_DataFrame [(k1, ObjArray a); (k2, ObjArray b); (k3, ObjIntList l)]
  = Some [(k1, FloatCol (data a)); (k2, FloatCol (data b)); (k3, IntCol l)].
Proof.
  intros Ha Hb Hba Hl. unfold pd_DataFrame.
  cbn [traverse to_column fst snd obind option_map].
  rewrite Ha, Hb.
  cbn [Nat.eqb obind option_map forallb column_length snd].
  rewrite Hba, Hl, Nat.eqb_refl. reflexivity.
Qed.

Lemma cell_frame_eq (z : nat -> R) :
  cell_frame grid grid grid (curve1 z) (curve2 z) (curve3 z) = Some (frame z).
Proof.
  unfold cell_frame.
  rewrite concatenate_flat3.
  cbn [obind v_flatten curve1 curve2 curve3 noisy_curve].
  rewrite concatenate_flat3.
  cbn [obind len flatten shape hd_error data]. rewrite grid_size.
  rewrite pd_DataFrame_three; [reflexivity|reflexivity|reflexivity| |].
  - pose proof (curve_size z) as Hc. unfold noisy_curve, elements in Hc. cbn [data] in Hc.
    cbn [data concat]. rewrite !length_app, !Hc, !grid_size. reflexivity.
  - cbn [data concat]. rewrite !length_app, !repeat_length, !grid_size. reflexivity.
Qed.

Ltac build_model :=
  let Hc := fresh in
  let Hr := fresh in
  let Hm := fresh in
  intros [[? Hc] [[? Hr] [? Hm]]];
  unfold pm_Model, model_body, model_v2_body, model_v3_body, bind, lift, df_column, take;
  rewrite Hc, Hr, Hm; reflexivity.

Lemma model_body_eq (d : DataFrame) :
  frame_ok d -> pm_Model (model_body d) = Some model_rvs.
Proof. build_model. Qed.

Lemma model_v2_body_eq (d : DataFrame) :
  frame_ok d -> pm_Model (model_v2_body d) = Some model_v2_rvs.
Proof. build_model. Qed.

Lemma model_v3_body_eq (d : DataFrame) :
  frame_ok d -> pm_Model (model_v3_body d) = Some model_v3_rvs.
Proof. build_model. Qed.

Lemma frame_is_ok (z : nat -> R) : frame_ok (frame z).
Proof. repeat split; eexists; reflexivity. Qed.

Lemma run_notebook_eq (z : nat -> R) :
  run_notebook z = Some (final_env z, mk_state 150 (final_events z)).
Proof.
  unfold run_notebook, notebook.
  unfold bind at 1. unfold lift at 1. rewrite cell_grids_eq. cbn [option_map].
  unfold bind at 1. rewrite cell_responses_eq.
  unfold bind, lift.
  rewrite cell_frame_eq. cbn [option_map].
  rewrite model_body_eq, model_v2_body_eq, model_v3_body_eq by apply frame_is_ok.
  reflexivity.
Qed.

(** ** The dose-response function *)

(** C1.  For real parameters and any array [x], [dose_response] returns an
    array of the shape of [x] whose element at every position is
    [lower + (upper - lower) / (1 + exp (slope * (c50 - x_i)))]. *)
Theorem dose_response_elementwise (x : ndarray) (lower upper slope c50 : R) :
  exists y,
    dose_response (VArr x) (VFloat lower) (VFloat upper) (VFloat slope) (VFloat c50)
    = Some (VArr y) /\
    shape y = shape x /\
    length (data y) = length (data x) /\
    forall i xi, nth_error (data x) i = Some xi ->
      nth_error (data y) i = Some (lower + (upper - lower) / (1 + exp (slope * (c50 - xi)))).
Proof.
  eexists. split; [apply dose_response_array|].
  cbn [shape data]. split; [reflexivity|]. split; [apply length_map|].
  intros i xi Hi. rewrite nth_error_map, Hi. reflexivity.
Qed.

(** C2, amended.  In exact real arithmetic, with [slope > 0] and
    [upper > lower] the curve [dose_response] evaluates is strictly
    increasing in [x], tends to [lower] as [x] decreases and to [upper] as
    [x] increases.  (The binary64 program is not strictly increasing, see
    [activation_fails_in_binary64].) *)
Theorem dose_response_is_activation (lower upper slope c50 : R) :
  0 < slope -> lower < upper -> activation_curve lower upper slope c50.
Proof.
  intros Hs Hlu. unfold activation_curve. repeat split.
  - intros a b Hab. exists (sigmoid4 lower upper slope c50 a), (sigmoid4 lower upper slope c50 b).
    rewrite !dose_response_float_eq. repeat split.
    apply sigmoid4_increasing; assumption.
  - intros eps He.
    destruct (sigmoid4_tends_to_lower lower upper slope c50 eps Hs Hlu He) as [m Hm].
    exists m. intros x Hx. exists (sigmoid4 lower upper slope c50 x).
    rewrite dose_response_float_eq. split; [reflexivity|]. apply Hm, Hx.
  - intros eps He.
    destruct (sigmoid4_tends_to_upper lower upper slope c50 eps Hs Hlu He) as [m Hm].
    exists m. intros x Hx. exists (sigmoid4 lower upper slope c50 x).
    rewrite dose_response_float_eq. split; [reflexivity|]. apply Hm, Hx.
Qed.

(** The three synthetic parameter sets of the notebook are activation
    curves. *)
Lemma synthetic_curves_are_activation :
  (0 < 4 /\ 3 < 6 /\ activation_curve 3 6 4 0) /\
  (0 < 3 /\ 5 / 2 < 8 /\ activation_curve (5 / 2) 8 3 (3 / 2)) /\
  (0 < 3 / 2 /\ 16 / 5 < 17 / 5 /\ activation_curve (16 / 5) (17 / 5) (3 / 2) 0).
Proof.
  split; [|split].
  - split; [lra|]. split; [lra|]. apply dose_response_is_activation; lra.
  - split; [lra|]. split; [lra|]. apply dose_response_is_activation; lra.
  - split; [lra|]. split; [lra|]. apply dose_response_is_activation; lra.
Defined.


(** C9, amended.  In exact real arithmetic the curve lies strictly between
    its plateaus when [lower < upper], and is constant [lower] when they
    coincide.  (The binary64 program can return a plateau exactly, see
    [plateau_reached_in_binary64].) *)
Theorem dose_response_between_plateaus (x lower upper slope c50 : R) :
  (lower < upper ->
   exists r, dose_response_float x lower upper slope c50 = Some r /\ lower < r < upper) /\
  (lower = upper -> dose_response_float x lower upper slope c50 = Some lower).
Proof.
  rewrite dose_response_float_eq. split.
  - intros Hlu. eexists. split; [reflexivity|]. apply sigmoid4_bounds, Hlu.
  - intros <-. rewrite sigmoid4_flat. reflexivity.
Qed.

Lemma dose_response_between_plateaus_example :
  3 < 6 /\ exists r, dose_response_float 0 3 6 4 0 = Some r /\ 3 < r < 6.
Proof.
  split; [lra|]. apply (proj1 (dose_response_between_plateaus 0 3 6 4 0)). lra.
Defined.

(** ** Lists of rows *)

Lemma combine_app {A B : Type} (a1 a2 : list A) (b1 b2 : list B) :
  length a1 = length b1 ->
  combine (a1 ++ a2) (b1 ++ b2) = combine a1 b1 ++ combine a2 b2.
Proof.
  revert b1. induction a1 as [|a a1 IH]; intros [|b b1] Hlen; cbn in *;
    try discriminate; [reflexivity|].
  rewrite IH by lia. reflexivity.
Qed.

Lemma filter_tag_same {A : Type} (l : list A) (k : Z) (n : nat) :
  filter (fun r => Z.eqb (snd r) k) (combine l (repeat k n)) = combine l (repeat k n).
Proof.
  revert n. induction l as [|a l IH]; intros [|n]; cbn; try reflexivity.
  rewrite Z.eqb_refl, IH. reflexivity.
Qed.

Lemma filter_tag_other {A : Type} (l : list A) (k k' : Z) (n : nat) :
  k' <> k ->
  filter (fun r => Z.eqb (snd r) k) (combine l (repeat k' n)) = [].
Proof.
  intros Hk. revert n. induction l as [|a l IH]; intros [|n]; cbn; try reflexivity.
  destruct (Z.eqb_spec k' k) as [Heq|_]; [contradiction|]. apply IH.
Qed.

Lemma map_fst_combine_repeat {A : Type} (l : list A) (k : Z) (n : nat) :
  length l = n -> map fst (combine l (repeat k n)) = l.
Proof.
  revert n. induction l as [|a l IH]; intros [|n] Hlen; cbn in *; try discriminate;
    [reflexivity|].
  rewrite IH by lia. reflexivity.
Qed.

Lemma map_fst_combine {A B : Type} (l : list A) (l' : list B) :
  length l = length l' -> map fst (combine l l') = l.
Proof.
  revert l'. induction l as [|a l IH]; intros [|b l'] Hlen; cbn in *; try discriminate;
    [reflexivity|].
  rewrite IH by lia. reflexivity.
Qed.

(** Three blocks of rows tagged 0, 1 and 2 are recovered by their tag. *)
Lemma molecule_rows_blocks (c1 c2 c3 r1 r2 r3 : list R) (n1 n2 n3 : nat) :
  length c1 = n1 -> length r1 = n1 ->
  length c2 = n2 -> length r2 = n2 ->
  length c3 = n3 -> length r3 = n3 ->
  let conc := c1 ++ c2 ++ c3 in
  let resp := r1 ++ r2 ++ r3 in
  let mol := repeat 0%Z n1 ++ repeat 1%Z n2 ++ repeat 2%Z n3 in
  molecule_rows conc resp mol 0 = combine c1 r1 /\
  molecule_rows conc resp mol 1 = combine c2 r2 /\
  molecule_rows conc resp mol 2 = combine c3 r3.
Proof.
  intros Hc1 Hr1 Hc2 Hr2 Hc3 Hr3 conc resp mol.
  assert (Hrows : combine (combine conc resp) mol
                  = combine (combine c1 r1) (repeat 0%Z n1)
                    ++ combine (combine c2 r2) (repeat 1%Z n2)
                    ++ combine (combine c3 r3) (repeat 2%Z n3)).
  { unfold conc, resp, mol.
    rewrite (combine_app c1) by lia. rewrite (combine_app c2) by lia.
    rewrite (combine_app (combine c1 r1))
      by (rewrite length_combine, repeat_length; lia).
    rewrite (combine_app (combine c2 r2))
      by (rewrite length_combine, repeat_length; lia).
    reflexivity. }
  unfold molecule_rows. rewrite Hrows, !filter_app.
  rewrite !filter_tag_same.
  rewrite !filter_tag_other by lia.
  cbn [app]. rewrite !app_nil_r.
  repeat split; apply map_fst_combine_repeat; rewrite length_combine; lia.
Qed.

(** ** The concentration grid *)

(** Overwriting the last point by [stop] changes nothing over the reals. *)
Lemma linspace_evenly_spaced (start stop : R) (num : nat) :
  data (linspace start stop num) = evenly_spaced start stop num.
Proof.
  unfold linspace, evenly_spaced.
  destruct num as [|[|n]]; [reflexivity| |].
  - cbn. f_equal. lra.
  - cbn [data]. set (m := S n).
    replace (S m - 1)%nat with m by lia.
    rewrite (seq_S m 0), !map_app, firstn_app, length_map, length_seq, Nat.sub_diag.
    rewrite firstn_all2 by (rewrite length_map, length_seq; lia).
    cbn [firstn map app Nat.add]. rewrite app_nil_r. f_equal.
    + apply map_ext. intros i. ring.
    + f_equal. field. apply not_0_INR. unfold m. lia.
Qed.

Lemma evenly_spaced_bounds (a b : R) (n : nat) (c : R) :
  a <= b -> In c (evenly_spaced a b n) -> a <= c <= b.
Proof.
  intros Hab Hin. unfold evenly_spaced in Hin. apply in_map_iff in Hin.
  destruct Hin as [i [<- Hi]]. apply in_seq in Hi.
  destruct n as [|[|n]]; [lia| |].
  - assert (i = 0%nat) by lia. subst i. cbn. lra.
  - set (m := S n) in *. replace (S m - 1)%nat with m by lia.
    assert (Hm : 0 < INR m) by (apply lt_0_INR; unfold m; lia).
    assert (Him : INR i <= INR m) by (apply le_INR; lia).
    pose proof (pos_INR i) as Hi0.
    assert (Hq : 0 <= INR i / INR m <= 1).
    { assert (Hq : INR i / INR m * INR m = INR i) by (field; lra).
      split; [|nra].
      unfold Rdiv. apply Rmult_le_pos; [lra|]. apply Rlt_le, Rinv_0_lt_compat, Hm. }
    replace (INR i * ((b - a) / INR m)) with (INR i / INR m * (b - a)) by (field; lra).
    nra.
Qed.

Lemma grid_data : data grid = concat (repeat (evenly_spaced (-2) 2 10) 5).
Proof.
  unfold grid. cbn [data]. rewrite map_repeat. unfold grid_row.
  rewrite linspace_evenly_spaced. reflexivity.
Qed.

Lemma grid_bounds (c : R) : In c (data grid) -> -2 <= c <= 2.
Proof.
  rewrite grid_data. intros Hin. apply in_concat in Hin.
  destruct Hin as [row [Hrow Hc]]. apply repeat_spec in Hrow. subst row.
  apply (evenly_spaced_bounds (-2) 2 10); [lra|exact Hc].
Qed.

(** ** The model specifications *)

(** C4, as stated, fails: the first model gives every curve parameter a
    prior with constant parameters, so it does not pool across molecules
    (shown on the run without noise). *)
Lemma first_model_is_not_pooled :
  exists e st,
    run_notebook (fun _ => 0) = Some (e, st) /\
    partial_pooling (model e) = false /\
    forallb (fun p => negb (has_hyperprior (model e) p)) curve_parameters = true.
Proof.
  eexists. eexists. split; [apply run_notebook_eq|]. split; reflexivity.
Qed.

(** C4, amended.  [model_v2] and [model_v3] place group-level hyperpriors
    over each of [lower], [upper], [c50] and [slope]; the first model gives
    each of the four an independent prior with constant parameters. *)
Theorem refined_models_pool_partially (z : nat -> R) :
  exists e st,
    run_notebook z = Some (e, st) /\
    partial_pooling (model_v2 e) = true /\
    partial_pooling (model_v3 e) = true /\
    no_pooling (model e) = true.
Proof.
  eexists. eexists. split; [apply run_notebook_eq|]. repeat split; reflexivity.
Qed.

(** C7.  The run makes exactly three sampling calls, for [model],
    [model_v2] and [model_v3] in that order, each asking for 2000 draws. *)
Theorem three_sampling_calls (z : nat -> R) :
  exists e st,
    run_notebook z = Some (e, st) /\
    filter is_sample (events st)
    = [ESample (model e) 2000; ESample (model_v2 e) 2000; ESample (model_v3 e) 2000] /\
    length (filter is_sample (events st)) = 3%nat.
Proof.
  eexists. eexists. split; [apply run_notebook_eq|]. split; reflexivity.
Qed.

(** ** The data frame *)

(** C5, as stated, fails: the [molecule] column holds integers (shown on
    the run without noise). *)
Lemma molecule_column_is_not_float :
  exists e st,
    run_notebook (fun _ => 0) = Some (e, st) /\
    all_float (df e) = false /\
    option_map column_dtype (df_get (df e) "molecule") = Some int64.
Proof.
  eexists. eexists. split; [apply run_notebook_eq|]. split; reflexivity.
Qed.

(** C5, amended.  The frame has the columns [concentration], [response]
    and [molecule]; the first two hold floats and [molecule] holds
    integers. *)
Theorem frame_column_types (z : nat -> R) :
  exists e st,
    run_notebook z = Some (e, st) /\
    map fst (df e) = ["concentration"; "response"; "molecule"] /\
    option_map column_dtype (df_get (df e) "concentration") = Some float64 /\
    option_map column_dtype (df_get (df e) "response") = Some float64 /\
    option_map column_dtype (df_get (df e) "molecule") = Some int64.
Proof.
  eexists. eexists. split; [apply run_notebook_eq|]. repeat split; reflexivity.
Qed.

Lemma frame_blocks (z : nat -> R) :
  let conc := data grid ++ data grid ++ data grid in
  let resp := elements (curve1 z) ++ elements (curve2 z) ++ elements (curve3 z) in
  let mol := repeat 0%Z 50 ++ repeat 1%Z 50 ++ repeat 2%Z 50 in
  frame z = [("concentration", FloatCol conc); ("response", FloatCol resp);
             ("molecule", IntCol mol)] /\
  length conc = 150%nat /\ length resp = 150%nat /\ length mol = 150%nat /\
  molecule_rows conc resp mol 0 = combine (data grid) (elements (curve1 z)) /\
  molecule_rows conc resp mol 1 = combine (data grid) (elements (curve2 z)) /\
  molecule_rows conc resp mol 2 = combine (data grid) (elements (curve3 z)).
Proof.
  intros conc resp mol.
  split; [unfold frame; cbn [concat]; rewrite !app_nil_r; reflexivity|].
  split; [unfold conc; rewrite !length_app, !grid_size; reflexivity|].
  split; [unfold resp, curve1, curve2, curve3; rewrite !length_app, !curve_size; reflexivity|].
  split; [reflexivity|].
  apply (molecule_rows_blocks _ _ _ _ _ _ 50 50 50);
    first [apply grid_size | apply curve_size].
Qed.

(** C6.  The frame has 150 rows; its [molecule] column takes exactly the
    values 0, 1 and 2, fifty rows each; and the rows of molecule [k], in
    order, pair the flattened concentrations of grid [x_(k+1)] with the
    flattened responses [y_(k+1)]. *)
Theorem synthetic_dataset_three_molecules (z : nat -> R) :
  exists e st conc resp mol f1 f2 f3,
    run_notebook z = Some (e, st) /\
    df e = [("concentration", FloatCol conc); ("response", FloatCol resp);
            ("molecule", IntCol mol)] /\
    nrows (df e) = 150%nat /\
    length conc = 150%nat /\ length resp = 150%nat /\ length mol = 150%nat /\
    (forall m, In m mol <-> (m = 0 \/ m = 1 \/ m = 2)%Z) /\
    count_occ Z.eq_dec mol 0%Z = 50%nat /\
    count_occ Z.eq_dec mol 1%Z = 50%nat /\
    count_occ Z.eq_dec mol 2%Z = 50%nat /\
    v_flatten (y1 e) = Some f1 /\ v_flatten (y2 e) = Some f2 /\ v_flatten (y3 e) = Some f3 /\
    length (data (flatten (x1 e))) = 50%nat /\ length (data f1) = 50%nat /\
    length (data (flatten (x2 e))) = 50%nat /\ length (data f2) = 50%nat /\
    length (data (flatten (x3 e))) = 50%nat /\ length (data f3) = 50%nat /\
    molecule_rows conc resp mol 0 = combine (data (flatten (x1 e))) (data f1) /\
    molecule_rows conc resp mol 1 = combine (data (flatten (x2 e))) (data f2) /\
    molecule_rows conc resp mol 2 = combine (data (flatten (x3 e))) (data f3).
Proof.
  destruct (frame_blocks z) as (Hdf & Hc & Hr & Hm & H0 & H1 & H2).
  exists (final_env z), (mk_state 150 (final_events z)).
  do 3 eexists. exists (flatten (Np.mk_ndarray [5; 10]%nat (elements (curve1 z)))).
  exists (flatten (Np.mk_ndarray [5; 10]%nat (elements (curve2 z)))).
  exists (flatten (Np.mk_ndarray [5; 10]%nat (elements (curve3 z)))).
  split; [apply run_notebook_eq|].
  cbn [df final_env x1 x2 x3 y1 y2 y3].
  split; [exact Hdf|].
  split; [rewrite Hdf; cbn [nrows column_length]; exact Hc|].
  split; [exact Hc|]. split; [exact Hr|]. split; [exact Hm|].
  split.
  { intros m. rewrite !in_app_iff. split.
    - intros [H|[H|H]]; apply repeat_spec in H; lia.
    - intros [ -> | [ -> | -> ] ]; [left|right; left|right; right]; cbn; left; reflexivity. }
  split; [reflexivity|]. split; [reflexivity|]. split; [reflexivity|].
  split; [reflexivity|]. split; [reflexivity|]. split; [reflexivity|].
  cbn [flatten data].
  split; [apply grid_size|]. split; [apply curve_size|].
  split; [apply grid_size|]. split; [apply curve_size|].
  split; [apply grid_size|]. split; [apply curve_size|].
  split; [exact H0|]. split; [exact H1|exact H2].
Qed.

(** C10.  [x1], [x2] and [x3] are one and the same 5-by-10 array whose
    rows are the 10 evenly spaced points from -2 to 2; every concentration
    of the frame lies in [-2, 2]; and the concentrations of each molecule
    are that 10-point grid five times over. *)
Theorem identical_concentration_grid (z : nat -> R) :
  exists e st conc resp mol,
    run_notebook z = Some (e, st) /\
    x1 e = x2 e /\ x2 e = x3 e /\
    shape (x1 e) = [5; 10]%nat /\
    data (x1 e) = concat (repeat (evenly_spaced (-2) 2 10) 5) /\
    length (evenly_spaced (-2) 2 10) = 10%nat /\
    df e = [("concentration", FloatCol conc); ("response", FloatCol resp);
            ("molecule", IntCol mol)] /\
    Forall (fun c => -2 <= c <= 2) conc /\
    map fst (molecule_rows conc resp mol 0) = concat (repeat (evenly_spaced (-2) 2 10) 5) /\
    map fst (molecule_rows conc resp mol 1) = concat (repeat (evenly_spaced (-2) 2 10) 5) /\
    map fst (molecule_rows conc resp mol 2) = concat (repeat (evenly_spaced (-2) 2 10) 5).
Proof.
  destruct (frame_blocks z) as (Hdf & Hc & Hr & Hm & H0 & H1 & H2).
  exists (final_env z), (mk_state 150 (final_events z)).
  do 3 eexists.
  split; [apply run_notebook_eq|].
  cbn [df final_env x1 x2 x3].
  split; [reflexivity|]. split; [reflexivity|]. split; [reflexivity|].
  split; [apply grid_data|].
  split; [unfold evenly_spaced; rewrite length_map, length_seq; reflexivity|].
  split; [exact Hdf|].
  split.
  { apply Forall_forall. intros c Hin. rewrite !in_app_iff in Hin.
    destruct Hin as [H|[H|H]]; apply grid_bounds, H. }
  rewrite H0, H1, H2, <- grid_data.
  repeat split; apply map_fst_combine; rewrite grid_size, curve_size; reflexivity.
Qed.

(** * Further properties of the notebook *)

Lemma nth_error_combine {A B : Type} (a : list A) (b : list B) (i : nat) (x : A) (y : B) :
  nth_error a i = Some x -> nth_error b i = Some y ->
  nth_error (combine a b) i = Some (x, y).
Proof.
  revert b i. induction a as [|a0 a IH]; intros [|b0 b] [|i] Ha Hb; cbn in *;
    try discriminate.
  - congruence.
  - apply IH; assumption.
Qed.

Lemma nth_error_zip_with (f : R -> R -> R) (a b : list R) (i : nat) (x y : R) :
  nth_error a i = Some x -> nth_error b i = Some y ->
  nth_error (zip_with f a b) i = Some (f x y).
Proof.
  intros Ha Hb. unfold zip_with.
  rewrite nth_error_map, (nth_error_combine a b i x y Ha Hb). reflexivity.
Qed.

Lemma length_zip_with (f : R -> R -> R) (a b : list R) :
  length b = length a -> length (zip_with f a b) = length a.
Proof. intros H. unfold zip_with. rewrite length_map, length_combine, H. apply Nat.min_id. Qed.

Lemma shape_eqb_true (s t : list nat) : s = t -> shape_eqb s t = true.
Proof.
  intros ->. unfold shape_eqb. destruct (list_eq_dec Nat.eq_dec t t); [reflexivity|contradiction].
Qed.

Lemma broadcast_arrays (f : R -> R -> R) (a b : ndarray) :
  shape b = shape a ->
  broadcast (fun x y => Some (f x y)) (VArr a) (VArr b)
  = Some (VArr (mk_ndarray (shape a) (zip_with f (data a) (data b)))).
Proof.
  intros Hs. unfold broadcast. rewrite shape_eqb_true by (symmetry; exact Hs).
  rewrite (traverse_total (fun p => f (fst p) (snd p))). reflexivity.
Qed.

Lemma divide_arrays (a b : ndarray) :
  shape b = shape a -> Forall (fun d => 0 < d) (data b) ->
  py_div (VArr a) (VArr b)
  = Some (VArr (mk_ndarray (shape a) (zip_with Rdiv (data a) (data b)))).
Proof.
  intros Hs Hpos. unfold py_div, broadcast. rewrite shape_eqb_true by (symmetry; exact Hs).
  rewrite (traverse_ext_in _ (fun p => Some (fst p / snd p))).
  - rewrite (traverse_total (fun p => fst p / snd p)). reflexivity.
  - intros [x y] Hin. cbn [fst snd]. apply div_kernel_nonzero.
    apply in_combine_r in Hin. rewrite Forall_forall in Hpos. specialize (Hpos y Hin). lra.
Qed.

Lemma dose_response_arrays_nth (x l u s c : ndarray) :
  shape l = shape x -> shape u = shape x -> shape s = shape x -> shape c = shape x ->
  length (data l) = length (data x) -> length (data u) = length (data x) ->
  length (data s) = length (data x) -> length (data c) = length (data x) ->
  exists y,
    dose_response (VArr x) (VArr l) (VArr u) (VArr s) (VArr c) = Some (VArr y) /\
    shape y = shape x /\
    length (data y) = length (data x) /\
    forall i xi li ui si ci,
      nth_error (data x) i = Some xi -> nth_error (data l) i = Some li ->
      nth_error (data u) i = Some ui -> nth_error (data s) i = Some si ->
      nth_error (data c) i = Some ci ->
      nth_error (data y) i = Some (li + (ui - li) / (1 + exp (si * (ci - xi)))).
Proof.
  intros Hl Hu Hs Hc Ll Lu Ls Lc.
  unfold dose_response, dose_response_denominator.
  cbn [p_sub p_mul p_add p_div p_exp p_int value_number].
  unfold py_sub, py_mul.
  rewrite (broadcast_arrays Rminus u l) by congruence. cbn [obind].
  rewrite (broadcast_arrays Rminus c x) by congruence. cbn [obind].
  rewrite (broadcast_arrays Rmult s) by (cbn [shape]; congruence). cbn [obind np_exp shape data].
  unfold py_add at 1. unfold broadcast at 1. cbn [shape data].
  rewrite (traverse_total (fun e => 1 + e)). cbn [option_map obind].
  rewrite divide_arrays; cbn [shape data]; [| congruence |].
  2:{ apply Forall_forall. intros d Hd. apply in_map_iff in Hd. destruct Hd as [e [<- He]].
      apply in_map_iff in He. destruct He as [m [<- _]]. pose proof (exp_pos m). lra. }
  cbn [obind]. unfold py_add.
  rewrite (broadcast_arrays Rplus l) by (cbn [shape]; congruence).
  eexists. split; [reflexivity|]. cbn [shape data].
  split; [exact Hl|].
  assert (Lcx : length (zip_with Rminus (data c) (data x)) = length (data x))
    by (rewrite length_zip_with; congruence).
  assert (Lden : length (map (fun e => 1 + e)
                          (map exp (zip_with Rmult (data s)
                                      (zip_with Rminus (data c) (data x)))))
                 = length (data x))
    by (rewrite !length_map, length_zip_with; congruence).
  assert (Lul : length (zip_with Rminus (data u) (data l)) = length (data x))
    by (rewrite length_zip_with; congruence).
  split.
  { rewrite length_zip_with; [congruence|].
    rewrite length_zip_with; congruence. }
  intros i xi li ui si ci Hx Hli Hui Hsi Hci.
  apply nth_error_zip_with; [exact Hli|].
  apply nth_error_zip_with; [apply nth_error_zip_with; assumption|].
  rewrite !nth_error_map.
  rewrite (nth_error_zip_with Rmult _ _ i si (ci - xi) Hsi
             (nth_error_zip_with Rminus _ _ i ci xi Hci Hx)).
  reflexivity.
Qed.

(** X9.  [dose_response(x, ...) + noise(x, sd)]: a negative [sd] raises; otherwise
    the result has the shape of [x], its element [i] is the curve at [x_i]
    plus [sd] times the next unused variate, the generator moves on by the
    size of [x] and nothing is plotted or sampled. *)
Theorem response_is_curve_plus_scaled_variates
    (z : nat -> R) (x : ndarray) (lower upper slope c50 sd : R) (st : nb_state) :
  (sd < 0 -> response z x lower upper slope c50 sd st = None) /\
  (0 <= sd -> well_shaped x ->
   exists y,
     response z x lower upper slope c50 sd st
     = Some (VArr y, mk_state (rng_pos st + length (data x)) (events st)) /\
     shape y = shape x /\ well_shaped y /\
     forall i xi, nth_error (data x) i = Some xi ->
       exists r, dose_response_float xi lower upper slope c50 = Some r /\
                 nth_error (data y) i = Some (r + sd * z (rng_pos st + i)%nat)).
Proof.
  split.
  - intros Hsd. unfold response, bind, lift. rewrite dose_response_array. cbn [option_map].
    unfold noise, np_random_normal. destruct (Rlt_dec sd 0); [reflexivity|lra].
  - intros Hsd Hx. rewrite response_eq by exact Hsd. unfold well_shaped in Hx.
    rewrite Hx. eexists. split; [reflexivity|]. cbn [shape data].
    split; [reflexivity|]. split.
    + unfold well_shaped. cbn [shape data].
      rewrite length_map, length_combine, !length_map, length_seq, Hx. lia.
    + intros i xi Hi. exists (sigmoid4 lower upper slope c50 xi).
      split; [apply dose_response_float_eq|].
      assert (Hlt : (i < length (data x))%nat)
        by (apply nth_error_Some; rewrite Hi; discriminate).
      rewrite nth_error_map.
      rewrite (nth_error_combine _ _ i (sigmoid4 lower upper slope c50 xi)
                 (0 + sd * z (rng_pos st + i)%nat)).
      * cbn [option_map fst snd]. f_equal. ring.
      * rewrite nth_error_map, Hi. reflexivity.
      * rewrite nth_error_map, nth_error_seq.
        destruct (Nat.ltb_spec i (length (data x))); [reflexivity|lia].
Qed.

Lemma response_is_curve_plus_scaled_variates_example :
  0 <= 1 / 2 /\ well_shaped (mk_ndarray [2%nat] [0; 1]) /\
  exists y,
    response (fun _ => 1) (mk_ndarray [2%nat] [0; 1]) 3 6 4 0 (1 / 2) initial_state
    = Some (VArr y, mk_state 2 []) /\ shape y = [2%nat].
Proof.
  split; [lra|]. split; [reflexivity|].
  destruct (proj2 (response_is_curve_plus_scaled_variates
                     (fun _ => 1) (mk_ndarray [2%nat] [0; 1]) 3 6 4 0 (1 / 2) initial_state)
              ltac:(lra) eq_refl) as [y [Hy [Hs _]]].
  exists y. split; [exact Hy|exact Hs].
Defined.




Lemma noisy_curve_nth (z : nat -> R) (pos : nat) (lower upper slope c50 sd : R) (i : nat) :
  (i < 50)%nat ->
  exists c,
    nth_error (data grid) i = Some c /\
    nth_error (elements (noisy_curve z pos lower upper slope c50 sd)) i
    = Some (sigmoid4 lower upper slope c50 c + sd * z (pos + i)%nat).
Proof.
  intros Hi.
  destruct (nth_error (data grid) i) as [c|] eqn:Hc.
  2:{ apply nth_error_None in Hc. rewrite grid_size in Hc. lia. }
  exists c. split; [reflexivity|].
  unfold noisy_curve, elements. cbn [data].
  rewrite nth_error_map.
  rewrite (nth_error_combine _ _ i (sigmoid4 lower upper slope c50 c)
             (0 + sd * z (pos + i)%nat)).
  - cbn [option_map fst snd]. f_equal. ring.
  - rewrite nth_error_map, Hc. reflexivity.
  - rewrite nth_error_map, nth_error_seq.
    destruct (Nat.ltb_spec i 50); [reflexivity|lia].
Qed.

Lemma frame_rows (z : nat -> R) (j : nat) :
  (j < 150)%nat ->
  exists c k r f,
    nth_error (data grid ++ data grid ++ data grid) j = Some c /\
    nth_error (repeat 0%Z 50 ++ repeat 1%Z 50 ++ repeat 2%Z 50) j = Some k /\
    nth_error (elements (curve1 z) ++ elements (curve2 z) ++ elements (curve3 z)) j = Some r /\
    (k = 0 \/ k = 1 \/ k = 2)%Z /\
    synthetic_curve k c = Some f /\
    r = f + z j / 2.
Proof.
  intros Hj.
  assert (Hsz1 := curve_size z 0 3 6 4 0 (1 / 2)).
  assert (Hsz2 := curve_size z 50 (5 / 2) 8 3 (3 / 2) (1 / 2)).
  assert (Hsz3 := curve_size z 100 (16 / 5) (17 / 5) (3 / 2) 0 (1 / 2)).
  destruct (Nat.lt_ge_cases j 50) as [H1|H1]; [|destruct (Nat.lt_ge_cases j 100) as [H2|H2]].
  - destruct (noisy_curve_nth z 0 3 6 4 0 (1 / 2) j H1) as [c [Hcj Hrj]].
    exists c, 0%Z. eexists. eexists.
    split; [rewrite nth_error_app1 by (rewrite grid_size; lia); exact Hcj|].
    split; [rewrite nth_error_app1 by (rewrite repeat_length; lia);
            apply nth_error_repeat; lia|].
    split; [unfold curve1; rewrite nth_error_app1 by (rewrite Hsz1; lia); exact Hrj|].
    split; [left; reflexivity|].
    split; [apply dose_response_float_eq|].
    cbn [Nat.add]. lra.
  - destruct (noisy_curve_nth z 50 (5 / 2) 8 3 (3 / 2) (1 / 2) (j - 50) ltac:(lia))
      as [c [Hcj Hrj]].
    exists c, 1%Z. eexists. eexists.
    split.
    { rewrite nth_error_app2 by (rewrite grid_size; lia). rewrite grid_size.
      rewrite nth_error_app1 by (rewrite grid_size; lia). exact Hcj. }
    split.
    { rewrite nth_error_app2 by (rewrite repeat_length; lia). rewrite repeat_length.
      rewrite nth_error_app1 by (rewrite repeat_length; lia).
      apply nth_error_repeat; lia. }
    split.
    { unfold curve1, curve2. rewrite nth_error_app2 by (rewrite Hsz1; lia). rewrite Hsz1.
      rewrite nth_error_app1 by (rewrite Hsz2; lia). exact Hrj. }
    split; [right; left; reflexivity|].
    split; [apply dose_response_float_eq|].
    replace (50 + (j - 50))%nat with j by lia. lra.
  - destruct (noisy_curve_nth z 100 (16 / 5) (17 / 5) (3 / 2) 0 (1 / 2) (j - 100) ltac:(lia))
      as [c [Hcj Hrj]].
    exists c, 2%Z. eexists. eexists.
    split.
    { rewrite nth_error_app2 by (rewrite grid_size; lia). rewrite grid_size.
      rewrite nth_error_app2 by (rewrite grid_size; lia). rewrite grid_size.
      replace (j - 50 - 50)%nat with (j - 100)%nat by lia. exact Hcj. }
    split.
    { rewrite nth_error_app2 by (rewrite repeat_length; lia). rewrite repeat_length.
      rewrite nth_error_app2 by (rewrite repeat_length; lia). rewrite repeat_length.
      apply nth_error_repeat; lia. }
    split.
    { unfold curve1, curve2, curve3.
      rewrite nth_error_app2 by (rewrite Hsz1; lia). rewrite Hsz1.
      rewrite nth_error_app2 by (rewrite Hsz2; lia). rewrite Hsz2.
      replace (j - 50 - 50)%nat with (j - 100)%nat by lia. exact Hrj. }
    split; [right; right; reflexivity|].
    split; [apply dose_response_float_eq|].
    replace (100 + (j - 100))%nat with j by lia. lra.
Qed.

(** X12.  In the frame of every run, the response of row [j] is the noise-free
    curve of the row's molecule at the row's concentration plus half of
    variate number [j]: each of the 150 rows has a variate of its own. *)
Theorem responses_are_curve_plus_noise (z : nat -> R) :
  exists e st conc resp mol,
    run_notebook z = Some (e, st) /\
    df e = [("concentration", FloatCol conc); ("response", FloatCol resp);
            ("molecule", IntCol mol)] /\
    forall j, (j < 150)%nat ->
      exists c k r f,
        nth_error conc j = Some c /\ nth_error mol j = Some k /\
        nth_error resp j = Some r /\
        synthetic_curve k c = Some f /\
        r = f + z j / 2.
Proof.
  destruct (frame_blocks z) as (Hdf & _).
  exists (final_env z), (mk_state 150 (final_events z)).
  do 3 eexists. split; [apply run_notebook_eq|].
  cbn [df final_env]. split; [exact Hdf|].
  intros j Hj.
  destruct (frame_rows z j Hj) as (c & k & r & f & Hc & Hk & Hr & _ & Hf & Heq).
  exists c, k, r, f. repeat split; assumption.
Qed.

(** X13.  For grids that are not all empty, the frame cell accepts three
    grids and three response arrays exactly when their total sizes agree, and
    raises otherwise; the molecule column then labels as many rows 0, 1 and
    2 as the three grids have elements. *)
Theorem cell_frame_checks_total_length (a b c r1 r2 r3 : ndarray) :
  data a ++ data b ++ data c <> [] ->
  cell_frame a b c (VArr r1) (VArr r2) (VArr r3)
  = if Nat.eqb (length (data r1 ++ data r2 ++ data r3)) (length (data a ++ data b ++ data c))
    then Some [("concentration", FloatCol (data a ++ data b ++ data c));
               ("response", FloatCol (data r1 ++ data r2 ++ data r3));
               ("molecule", IntCol (repeat 0%Z (length (data a))
                                    ++ repeat 1%Z (length (data b))
                                    ++ repeat 2%Z (length (data c))))]
    else None.
Proof.
  intros _.
  unfold cell_frame. rewrite concatenate_flat3.
  cbn [obind v_flatten]. rewrite concatenate_flat3.
  cbn [obind len flatten shape hd_error data concat]. rewrite !app_nil_r.
  unfold pd_DataFrame.
  cbn [traverse to_column fst snd obind option_map shape length Nat.eqb data
       forallb column_length].
  rewrite Nat.eqb_refl.
  assert (Hmol : length (repeat 0%Z (length (data a)) ++ repeat 1%Z (length (data b))
                         ++ repeat 2%Z (length (data c)))
                 = length (data a ++ data b ++ data c))
    by (rewrite !length_app, !repeat_length; reflexivity).
  rewrite Hmol, Nat.eqb_refl, andb_true_r. cbn [andb].
  reflexivity.
Qed.

Lemma cell_frame_checks_total_length_example :
  data (mk_ndarray [1%nat] [0]) ++ data (mk_ndarray [1%nat] [1]) ++ data (mk_ndarray [1%nat] [2])
  <> [] /\
  cell_frame (mk_ndarray [1%nat] [0]) (mk_ndarray [1%nat] [1]) (mk_ndarray [1%nat] [2])
             (VArr (mk_ndarray [2%nat] [3; 4])) (VArr (mk_ndarray [1%nat] [5]))
             (VArr (mk_ndarray [1%nat] [6])) = None.
Proof.
  assert (H : data (mk_ndarray [1%nat] [0]) ++ data (mk_ndarray [1%nat] [1])
              ++ data (mk_ndarray [1%nat] [2]) <> []) by discriminate.
  split; [exact H|].
  rewrite (cell_frame_checks_total_length _ _ _ _ _ _ H). reflexivity.
Defined.




Lemma eval_dose_response (d : DataFrame) (rho : assignment)
    (x l u s c t : term) (vx vl vu vs vc : value) :
  eval_term d rho x = Some vx -> eval_term d rho l = Some vl ->
  eval_term d rho u = Some vu -> eval_term d rho s = Some vs ->
  eval_term d rho c = Some vc ->
  dose_response x l u s c = Some t ->
  eval_term d rho t = dose_response vx vl vu vs vc.
Proof.
  intros Hx Hl Hu Hs Hc Ht.
  unfold dose_response, dose_response_denominator in Ht. cbn in Ht. injection Ht as <-.
  cbn [eval_term]. rewrite Hx, Hl, Hu, Hs, Hc. cbn [obind].
  unfold dose_response, dose_response_denominator.
  cbn [p_add p_sub p_mul p_div p_exp p_int value_number].
  destruct (py_sub vu vl) as [span|]; cbn [obind]; [|reflexivity].
  destruct (py_sub vc vx) as [dx|]; cbn [obind]; [|reflexivity].
  destruct (py_mul vs dx) as [m|]; cbn [obind option_map]; [|reflexivity].
  destruct (py_add (VFloat 1) (np_exp m)) as [den|]; cbn [obind]; reflexivity.
Qed.

(** X8.  Called with five arrays of one shape, as the model blocks call it,
    [dose_response] uses at each position the parameters found at that
    position. *)
Theorem dose_response_per_element (x l u s c : ndarray) :
  shape l = shape x -> shape u = shape x -> shape s = shape x -> shape c = shape x ->
  length (data l) = length (data x) -> length (data u) = length (data x) ->
  length (data s) = length (data x) -> length (data c) = length (data x) ->
  exists y,
    dose_response (VArr x) (VArr l) (VArr u) (VArr s) (VArr c) = Some (VArr y) /\
    shape y = shape x /\
    length (data y) = length (data x) /\
    forall i xi li ui si ci,
      nth_error (data x) i = Some xi -> nth_error (data l) i = Some li ->
      nth_error (data u) i = Some ui -> nth_error (data s) i = Some si ->
      nth_error (data c) i = Some ci ->
      nth_error (data y) i = Some (li + (ui - li) / (1 + exp (si * (ci - xi)))).
Proof. apply dose_response_arrays_nth. Qed.

Lemma np_index_in_range (l : list R) (k : Z) :
  (0 <= k < Z.of_nat (length l))%Z -> exists v, np_index l k = Some v.
Proof.
  intros Hk. unfold np_index. destruct (Z.leb_spec 0 k); [|lia].
  destruct (nth_error l (Z.to_nat k)) as [v|] eqn:Hv; [exists v; reflexivity|].
  apply nth_error_None in Hv. lia.
Qed.

Lemma traverse_np_index (l : list R) (idx : list Z) :
  Forall (fun k => (0 <= k < Z.of_nat (length l))%Z) idx ->
  exists vs, traverse (np_index l) idx = Some vs /\
             length vs = length idx /\
             forall j k v, nth_error idx j = Some k -> np_index l k = Some v ->
                           nth_error vs j = Some v.
Proof.
  induction 1 as [|k idx Hk _ IH].
  - exists []. split; [reflexivity|]. split; [reflexivity|].
    intros [|j] k v Hj; discriminate.
  - destruct IH as [vs [Hvs [Hlen Hnth]]].
    destruct (np_index_in_range l k Hk) as [v Hv].
    exists (v :: vs). cbn [traverse]. rewrite Hv, Hvs. cbn [obind].
    split; [reflexivity|]. split; [cbn; rewrite Hlen; reflexivity|].
    intros [|j] k' v' Hj Hv'; cbn in Hj |- *.
    + injection Hj as <-. congruence.
    + apply (Hnth j k' v' Hj Hv').
Qed.

Lemma eval_take (d : DataFrame) (rho : assignment) (name : string) (l : list R) (mol : list Z) :
  assigned rho name = Some (VArr (mk_ndarray [length l] l)) ->
  df_get d "molecule" = Some (IntCol mol) ->
  Forall (fun k => (0 <= k < Z.of_nat (length l))%Z) mol ->
  exists vs,
    eval_term d rho (TTake (TRV name) "molecule") = Some (VArr (mk_ndarray [length mol] vs)) /\
    length vs = length mol /\
    forall j k v, nth_error mol j = Some k -> np_index l k = Some v -> nth_error vs j = Some v.
Proof.
  intros Hrho Hmol Hrange.
  destruct (traverse_np_index l mol Hrange) as [vs [Hvs [Hlen Hnth]]].
  exists vs. cbn [eval_term]. rewrite Hrho. cbn [obind]. rewrite Hmol.
  cbn [shape length Nat.eqb data]. rewrite Hvs. cbn [option_map].
  split; [reflexivity|]. split; [exact Hlen|exact Hnth].
Qed.

Lemma mean_term_eval (d : DataFrame) (rho : assignment) (conc : list R) (mol : list Z)
    (lo up sl mid : list R) :
  df_get d "concentration" = Some (FloatCol conc) ->
  df_get d "molecule" = Some (IntCol mol) ->
  length mol = length conc ->
  length lo = 3%nat -> length up = 3%nat -> length sl = 3%nat -> length mid = 3%nat ->
  Forall (fun k => (0 <= k < 3)%Z) mol ->
  assigned rho "lower" = Some (VArr (mk_ndarray [3%nat] lo)) ->
  assigned rho "upper" = Some (VArr (mk_ndarray [3%nat] up)) ->
  assigned rho "slope" = Some (VArr (mk_ndarray [3%nat] sl)) ->
  assigned rho "c50" = Some (VArr (mk_ndarray [3%nat] mid)) ->
  exists y,
    eval_term d rho mean_term = Some (VArr y) /\
    shape y = [length conc] /\
    length (data y) = length conc /\
    forall j c k li ui si ci,
      nth_error conc j = Some c -> nth_error mol j = Some k ->
      np_index lo k = Some li -> np_index up k = Some ui ->
      np_index sl k = Some si -> np_index mid k = Some ci ->
      nth_error (data y) j = Some (li + (ui - li) / (1 + exp (si * (ci - c)))).
Proof.
  intros Hconc Hmol Hlen Llo Lup Lsl Lmid Hrange Rlo Rup Rsl Rmid.
  destruct (eval_take d rho "lower" lo mol) as [vl [El [Ll Nl]]];
    [rewrite Llo; exact Rlo|exact Hmol|rewrite Llo; exact Hrange|].
  destruct (eval_take d rho "upper" up mol) as [vu [Eu [Lu Nu]]];
    [rewrite Lup; exact Rup|exact Hmol|rewrite Lup; exact Hrange|].
  destruct (eval_take d rho "slope" sl mol) as [vs [Es [Ls Ns]]];
    [rewrite Lsl; exact Rsl|exact Hmol|rewrite Lsl; exact Hrange|].
  destruct (eval_take d rho "c50" mid mol) as [vc [Ec [Lc Nc]]];
    [rewrite Lmid; exact Rmid|exact Hmol|rewrite Lmid; exact Hrange|].
  assert (Ex : eval_term d rho (TColumn "concentration")
               = Some (VArr (mk_ndarray [length conc] conc)))
    by (cbn [eval_term]; rewrite Hconc; reflexivity).
  rewrite (eval_dose_response d rho _ _ _ _ _ mean_term _ _ _ _ _ Ex El Eu Es Ec eq_refl).
  destruct (dose_response_arrays_nth
              (mk_ndarray [length conc] conc) (mk_ndarray [length mol] vl)
              (mk_ndarray [length mol] vu) (mk_ndarray [length mol] vs)
              (mk_ndarray [length mol] vc)) as [y [Hy [Hsh [Hly Hnth]]]];
    cbn [shape data]; try congruence.
  exists y. split; [exact Hy|]. split; [exact Hsh|]. split; [exact Hly|].
  intros j c k li ui si ci Hc Hk Hli Hui Hsi Hci.
  apply (Hnth j c li ui si ci); cbn [data];
    [exact Hc|apply (Nl j k)|apply (Nu j k)|apply (Ns j k)|apply (Nc j k)]; assumption.
Qed.

Lemma likelihood_mean_built (m : pm_model) :
  In m [model_rvs; model_v2_rvs; model_v3_rvs] -> likelihood_mean m = Some mean_term.
Proof. intros [<-|[<-|[<-|[]]]]; reflexivity. Qed.

(** X18.  In each of the three models the mean of the likelihood, evaluated at
    per-molecule parameter arrays, is at row [j] the dose-response curve with
    the parameters of the molecule of row [j] at the concentration of row [j]. *)
Theorem model_mean_is_dose_response (d : DataFrame) (rho : assignment) (m : pm_model)
    (conc resp : list R) (mol : list Z) (lo up sl mid : list R) :
  In (Some m) [pm_Model (model_body d); pm_Model (model_v2_body d);
               pm_Model (model_v3_body d)] ->
  df_get d "concentration" = Some (FloatCol conc) ->
  df_get d "response" = Some (FloatCol resp) ->
  df_get d "molecule" = Some (IntCol mol) ->
  length mol = length conc ->
  Forall (fun k => (0 <= k < 3)%Z) mol ->
  length lo = 3%nat -> length up = 3%nat -> length sl = 3%nat -> length mid = 3%nat ->
  assigned rho "lower" = Some (VArr (mk_ndarray [3%nat] lo)) ->
  assigned rho "upper" = Some (VArr (mk_ndarray [3%nat] up)) ->
  assigned rho "slope" = Some (VArr (mk_ndarray [3%nat] sl)) ->
  assigned rho "c50" = Some (VArr (mk_ndarray [3%nat] mid)) ->
  exists t y,
    likelihood_mean m = Some t /\
    eval_term d rho t = Some (VArr y) /\
    shape y = [length conc] /\
    length (data y) = length conc /\
    forall j c k li ui si ci,
      nth_error conc j = Some c -> nth_error mol j = Some k ->
      np_index lo k = Some li -> np_index up k = Some ui ->
      np_index sl k = Some si -> np_index mid k = Some ci ->
      nth_error (data y) j = Some (li + (ui - li) / (1 + exp (si * (ci - c)))).
Proof.
  intros Hm Hconc Hresp Hmol Hlen Hrange Llo Lup Lsl Lmid Rlo Rup Rsl Rmid.
  assert (Hok : frame_ok d) by (repeat split; eexists; eassumption).
  rewrite model_body_eq, model_v2_body_eq, model_v3_body_eq in Hm by exact Hok.
  assert (Hin : In m [model_rvs; model_v2_rvs; model_v3_rvs]).
  { destruct Hm as [H|[H|[H|[]]]]; injection H as <-;
      [left|right; left|right; right; left]; reflexivity. }
  destruct (mean_term_eval d rho conc mol lo up sl mid) as [y Hy]; try assumption.
  exists mean_term, y. split; [apply likelihood_mean_built, Hin|exact Hy].
Qed.

Lemma model_mean_is_dose_response_example :
  In (Some model_rvs) [pm_Model (model_body toy_frame); pm_Model (model_v2_body toy_frame);
                       pm_Model (model_v3_body toy_frame)] /\
  exists t y,
    likelihood_mean model_rvs = Some t /\
    eval_term toy_frame true_parameters t = Some (VArr y) /\
    shape y = [2%nat].
Proof.
  assert (Hin : In (Some model_rvs)
                   [pm_Model (model_body toy_frame); pm_Model (model_v2_body toy_frame);
                    pm_Model (model_v3_body toy_frame)]) by (left; reflexivity).
  split; [exact Hin|].
  destruct (model_mean_is_dose_response toy_frame true_parameters model_rvs
              [0; 1] [4; 5] [0%Z; 2%Z] [3; 5 / 2; 16 / 5] [6; 8; 17 / 5] [4; 3; 3 / 2]
              [0; 3 / 2; 0] Hin eq_refl eq_refl eq_refl eq_refl
              ltac:(repeat constructor; lia) eq_refl eq_refl eq_refl eq_refl
              eq_refl eq_refl eq_refl eq_refl) as [t [y [Ht [Hy [Hs _]]]]].
  exists t, y. split; [exact Ht|]. split; [exact Hy|exact Hs].
Defined.

(** X19.  At the parameters the data were generated with, the likelihood mean
    of each of the three models differs from the observed response of row [j]
    by exactly half of variate [j]. *)
Theorem synthetic_data_follow_model_mean (z : nat -> R) :
  exists e st resp,
    run_notebook z = Some (e, st) /\
    df_get (df e) "response" = Some (FloatCol resp) /\
    length resp = 150%nat /\
    forall m, In m [model e; model_v2 e; model_v3 e] ->
      exists t y,
        likelihood_mean m = Some t /\
        eval_term (df e) true_parameters t = Some (VArr y) /\
        length (data y) = 150%nat /\
        forall j r, nth_error resp j = Some r ->
          exists mu, nth_error (data y) j = Some mu /\ r = mu + z j / 2.
Proof.
  destruct (frame_blocks z) as (Hdf & Hc & Hr & Hm & _).
  exists (final_env z), (mk_state 150 (final_events z)).
  eexists. split; [apply run_notebook_eq|].
  cbn [df final_env model model_v2 model_v3]. rewrite Hdf.
  split; [reflexivity|]. split; [exact Hr|].
  intros m Hin.
  destruct (mean_term_eval
              [("concentration", FloatCol (data grid ++ data grid ++ data grid));
               ("response", FloatCol (elements (curve1 z) ++ elements (curve2 z)
                                      ++ elements (curve3 z)));
               ("molecule", IntCol (repeat 0%Z 50 ++ repeat 1%Z 50 ++ repeat 2%Z 50))]
              true_parameters (data grid ++ data grid ++ data grid)
              (repeat 0%Z 50 ++ repeat 1%Z 50 ++ repeat 2%Z 50)
              [3; 5 / 2; 16 / 5] [6; 8; 17 / 5] [4; 3; 3 / 2] [0; 3 / 2; 0])
    as [y [Hy [_ [Hly Hnth]]]]; try reflexivity.
  { apply Forall_forall. intros k Hk. rewrite !in_app_iff in Hk.
    destruct Hk as [H|[H|H]]; apply repeat_spec in H; lia. }
  exists mean_term, y. split; [apply likelihood_mean_built, Hin|].
  split; [exact Hy|]. split; [rewrite Hly; exact Hc|].
  intros j r Hj.
  assert (Hlt : (j < 150)%nat).
  { rewrite <- Hr. apply nth_error_Some. rewrite Hj. discriminate. }
  destruct (frame_rows z j Hlt) as (c & k & r' & f & Hcj & Hkj & Hrj & Hk & Hf & Heq).
  rewrite Hj in Hrj. injection Hrj as <-.
  destruct Hk as [ -> | [ -> | -> ] ]; cbn [synthetic_curve] in Hf;
    rewrite dose_response_float_eq in Hf; injection Hf as <-;
    eexists;
    (split; [eapply Hnth; [exact Hcj|exact Hkj|reflexivity|reflexivity|reflexivity|reflexivity]
            |exact Heq]).
Qed.

(** X16.  On a frame with float columns [concentration] and [response] and
    an integer column [molecule], all of one positive length and with every
    index in [-3, 3), the three model blocks build, each to a specification
    that does not depend on the data.  On a frame that lacks one of the
    three columns, or whose [molecule] column is not integer, all three
    raise. *)
Theorem model_blocks_need_the_columns (d : DataFrame) :
  (forall conc resp mol,
      df_get d "concentration" = Some (FloatCol conc) ->
      df_get d "response" = Some (FloatCol resp) ->
      df_get d "molecule" = Some (IntCol mol) ->
      mol <> [] -> length conc = length mol -> length resp = length mol ->
      Forall (fun k => (-3 <= k < 3)%Z) mol ->
      pm_Model (model_body d) = Some model_rvs /\
      pm_Model (model_v2_body d) = Some model_v2_rvs /\
      pm_Model (model_v3_body d) = Some model_v3_rvs) /\
  (~ frame_ok d ->
   pm_Model (model_body d) = None /\
   pm_Model (model_v2_body d) = None /\
   pm_Model (model_v3_body d) = None).
Proof.
  split.
  - intros conc resp mol Hc Hr Hm _ _ _ _.
    assert (Hok : frame_ok d) by (repeat split; eexists; eassumption).
    rewrite model_body_eq, model_v2_body_eq, model_v3_body_eq by exact Hok.
    repeat split.
  - intros Hnot.
    destruct (df_get d "concentration") as [cc|] eqn:Hc;
      [destruct (df_get d "molecule") as [[lm|lm]|] eqn:Hm;
         [| destruct (df_get d "response") as [cr|] eqn:Hr |] |].
    2:{ exfalso. apply Hnot. repeat split; eexists; eassumption. }
    all: unfold pm_Model, model_body, model_v2_body, model_v3_body, bind, lift,
           df_column, take;
      rewrite ?Hc, ?Hm, ?Hr; repeat split.
Qed.

Lemma model_blocks_need_the_columns_example :
  df_get toy_frame "molecule" = Some (IntCol [0%Z; 2%Z]) /\
  Forall (fun k => (-3 <= k < 3)%Z) [0%Z; 2%Z] /\
  pm_Model (model_body toy_frame) = Some model_rvs.
Proof.
  assert (Hrange : Forall (fun k => (-3 <= k < 3)%Z) [0%Z; 2%Z])
    by (repeat constructor; lia).
  split; [reflexivity|]. split; [exact Hrange|].
  apply (proj1 (model_blocks_need_the_columns toy_frame) [0; 1] [4; 5] [0%Z; 2%Z]
           eq_refl eq_refl eq_refl ltac:(discriminate) eq_refl eq_refl Hrange).
Defined.

Lemma dose_response_per_element_example :
  shape (mk_ndarray [2%nat] [3; 5 / 2]) = shape (mk_ndarray [2%nat] [0; 1]) /\
  exists y,
    dose_response (VArr (mk_ndarray [2%nat] [0; 1])) (VArr (mk_ndarray [2%nat] [3; 5 / 2]))
                  (VArr (mk_ndarray [2%nat] [6; 8])) (VArr (mk_ndarray [2%nat] [4; 3]))
                  (VArr (mk_ndarray [2%nat] [0; 3 / 2])) = Some (VArr y) /\
    shape y = [2%nat].
Proof.
  split; [reflexivity|].
  destruct (dose_response_per_element
              (mk_ndarray [2%nat] [0; 1]) (mk_ndarray [2%nat] [3; 5 / 2])
              (mk_ndarray [2%nat] [6; 8]) (mk_ndarray [2%nat] [4; 3])
              (mk_ndarray [2%nat] [0; 3 / 2])
              eq_refl eq_refl eq_refl eq_refl eq_refl eq_refl eq_refl eq_refl)
    as [y [Hy [Hs _]]].
  exists y. split; [exact Hy|exact Hs].
Defined.

(** X20.  In the log of a run every sampling call is followed at once by the
    plot of the trace it returned, restricted to ["upper"]; every trace plot
    has such a sampling call just before it; and all scatter plots precede
    all sampling. *)
Theorem each_traceplot_follows_its_sample (z : nat -> R) :
  exists e st,
    run_notebook z = Some (e, st) /\
    (forall i m n, nth_error (events st) i = Some (ESample m n) ->
       nth_error (events st) (S i) = Some (ETraceplot (Trace m n) ["upper"])) /\
    (forall i t v, nth_error (events st) i = Some (ETraceplot t v) ->
       exists m n, t = Trace m n /\ v = ["upper"] /\
                   exists i', i = S i' /\ nth_error (events st) i' = Some (ESample m n)) /\
    (forall i j x y m n,
       nth_error (events st) i = Some (EScatter x y) ->
       nth_error (events st) j = Some (ESample m n) -> (i < j)%nat) /\
    trace_v1 e = Trace (model e) 2000 /\
    trace_v2 e = Trace (model_v2 e) 2000 /\
    trace_v3 e = Trace (model_v3 e) 2000.
Proof.
  exists (final_env z), (mk_state 150 (final_events z)).
  split; [apply run_notebook_eq|]. cbn [events final_env trace_v1 trace_v2 trace_v3
                                         model model_v2 model_v3].
  unfold final_events.
  split; [|split; [|split; [|repeat split]]].
  - intros i m n H.
    do 10 (destruct i as [|i]; cbn [nth_error] in H |- *;
           [first [discriminate H | injection H as <- <-; reflexivity]|]).
    destruct i; discriminate H.
  - intros i t v H.
    do 10 (destruct i as [|i]; cbn [nth_error] in H;
           [first [discriminate H
                  | injection H as <- <-; do 2 eexists;
                    split; [reflexivity|]; split; [reflexivity|];
                    eexists; split; reflexivity]|]).
    destruct i; discriminate H.
  - intros i j x y m n Hi Hj.
    do 3 (destruct i as [|i]; cbn [nth_error] in Hi;
          [do 3 (destruct j as [|j]; cbn [nth_error] in Hj; [discriminate Hj|]); lia|]).
    do 7 (destruct i as [|i]; cbn [nth_error] in Hi; [discriminate Hi|]).
    destruct i; discriminate Hi.
Qed.

(** * The program in binary64 *)

(** ** Finite floats *)

(** A finite float is a zero or has a sign, a mantissa and an exponent. *)
Lemma finite_cases (x : float) :
  PrimFloat.is_finite x = true ->
  (exists s, Prim2SF x = S754_zero s) \/ (exists s m e, Prim2SF x = S754_finite s m e).
Proof.
  intros Hfin. unfold PrimFloat.is_finite, PrimFloat.is_nan, PrimFloat.is_infinity in Hfin.
  rewrite !FloatAxioms.eqb_spec, FloatAxioms.abs_spec in Hfin.
  destruct (Prim2SF x) as [s|s| |s m e] eqn:Hx.
  - left. exists s. reflexivity.
  - exfalso. destruct s; vm_compute in Hfin; discriminate.
  - exfalso. vm_compute in Hfin. discriminate.
  - right. exists s, m, e. reflexivity.
Qed.

(** [x - x] is [+0] for every finite [x]. *)
Lemma sub_self (x : float) :
  PrimFloat.is_finite x = true -> (x - x)%float = PrimFloat.zero.
Proof.
  intros Hfin. apply Prim2SF_inj. rewrite FloatAxioms.sub_spec.
  destruct (finite_cases x Hfin) as [[s Hx]|[s [m [e Hx]]]]; rewrite Hx.
  - destruct s; reflexivity.
  - unfold SF64sub, SFsub. rewrite Z.min_id. unfold shl_align. rewrite Z.sub_diag.
    cbn [fst]. reflexivity.
Qed.

Lemma SF_zero_cases (x : float) (s : bool) :
  Prim2SF x = S754_zero s -> is_signed_zero x.
Proof.
  intros Hx. destruct s; [right|left]; apply Prim2SF_inj; rewrite Hx; reflexivity.
Qed.

(** A finite float times a zero is a zero. *)
Lemma mul_zero_r (x z : float) :
  PrimFloat.is_finite x = true -> is_signed_zero z -> is_signed_zero (x * z)%float.
Proof.
  intros Hfin Hz.
  assert (Hz' : exists sz, Prim2SF z = S754_zero sz)
    by (destruct Hz as [->| ->]; eexists; reflexivity).
  destruct Hz' as [sz Hz'].
  destruct (finite_cases x Hfin) as [[s Hx]|[s [m [e Hx]]]];
    apply (SF_zero_cases _ (xorb s sz)); rewrite FloatAxioms.mul_spec, Hx, Hz'; reflexivity.
Qed.

Lemma mul_zero_l (z x : float) :
  is_signed_zero z -> PrimFloat.is_finite x = true -> is_signed_zero (z * x)%float.
Proof.
  intros Hz Hfin.
  assert (Hz' : exists sz, Prim2SF z = S754_zero sz)
    by (destruct Hz as [->| ->]; eexists; reflexivity).
  destruct Hz' as [sz Hz'].
  destruct (finite_cases x Hfin) as [[s Hx]|[s [m [e Hx]]]];
    apply (SF_zero_cases _ (xorb sz s)); rewrite FloatAxioms.mul_spec, Hx, Hz'; reflexivity.
Qed.

(** ** Runs of [dose_response]

    When the exponent [slope * (c50 - x)] is a zero, the call returns
    [lower + (upper - lower) / 2]. *)
Lemma dose_response_b64_at_zero_exponent
    (fexp : float -> float) (x lower upper slope c50 : float) :
  fexp PrimFloat.zero = PrimFloat.one -> fexp PrimFloat.neg_zero = PrimFloat.one ->
  is_signed_zero (slope * (c50 - x))%float ->
  dose_response_b64 fexp x lower upper slope c50
  = Some (lower + (upper - lower) / 2)%float.
Proof.
  intros H0 Hn0 Hz.
  unfold dose_response_b64, dose_response, dose_response_denominator.
  cbn [p_add p_sub p_mul p_div p_exp p_int b64_number obind].
  assert (He : fexp (slope * (c50 - x))%float = PrimFloat.one)
    by (destruct Hz as [-> | ->]; assumption).
  rewrite He. reflexivity.
Qed.

Lemma is_zero_cases (x : float) : PrimFloat.is_zero x = true -> is_signed_zero x.
Proof.
  unfold PrimFloat.is_zero. rewrite FloatAxioms.eqb_spec. intros H.
  destruct (Prim2SF x) as [s|s| |s m e] eqn:Hx.
  - apply (SF_zero_cases x s Hx).
  - destruct s; vm_compute in H; discriminate.
  - vm_compute in H. discriminate.
  - destruct s; vm_compute in H; discriminate.
Qed.

(** The stand-in for [np.exp] is exact at the zeros and close elsewhere. *)
Lemma b64_exp_zero : b64_exp PrimFloat.zero = PrimFloat.one /\ b64_exp PrimFloat.neg_zero = PrimFloat.one.
Proof. split; vm_compute; reflexivity. Qed.

Example b64_exp_close_to_exp :
  (PrimFloat.abs (b64_exp 1 - 0x1.5bf0a8b145769p+1) <? 0x1p-38)%float = true /\
  (PrimFloat.abs (b64_exp (-40) - 0x1.39792499b1a24p-58) <? 0x1p-98)%float = true.
Proof. split; vm_compute; reflexivity. Qed.

(** The plateau runs below do not depend on the low bits of [np.exp]: they
    only need its values at -40 and -44 to be absorbed by 1, and its value at
    40 to be so large that the quotient is absorbed by 3.  The exponential is
    about [4.2e-18], [7.8e-20] and [2.4e+17] there, so this holds of any
    implementation. *)
Lemma dose_response_b64_saturates (fexp : float -> float) :
  (1 + fexp (-40))%float = 1%float ->
  dose_response_b64 fexp 10 3 6 4 0 = Some 6%float.
Proof.
  intros H. unfold dose_response_b64, dose_response, dose_response_denominator.
  cbn [p_add p_sub p_mul p_div p_exp p_int b64_number obind].
  change (4 * (0 - 10))%float with (-40)%float.
  change (b64_of_Z 1) with 1%float. rewrite H. reflexivity.
Qed.

Lemma dose_response_b64_saturates_further (fexp : float -> float) :
  (1 + fexp (-44))%float = 1%float ->
  dose_response_b64 fexp 11 3 6 4 0 = Some 6%float.
Proof.
  intros H. unfold dose_response_b64, dose_response, dose_response_denominator.
  cbn [p_add p_sub p_mul p_div p_exp p_int b64_number obind].
  change (4 * (0 - 11))%float with (-44)%float.
  change (b64_of_Z 1) with 1%float. rewrite H. reflexivity.
Qed.

Lemma dose_response_b64_saturates_below (fexp : float -> float) :
  (3 + 3 / (1 + fexp 40))%float = 3%float ->
  dose_response_b64 fexp (-10) 3 6 4 0 = Some 3%float.
Proof.
  intros H. unfold dose_response_b64, dose_response, dose_response_denominator.
  cbn [p_add p_sub p_mul p_div p_exp p_int b64_number obind].
  change (4 * (0 - -10))%float with 40%float.
  change (b64_of_Z 1) with 1%float. change (6 - 3)%float with 3%float.
  rewrite H. reflexivity.
Qed.

(** C2, as stated, fails of the program: with the parameters of [y1]
    ([slope = 4 > 0], [lower = 3 < upper = 6]) it returns 6.0 at [x = 10] and
    at [x = 11], so it is not strictly increasing. *)
Lemma activation_fails_in_binary64 :
  (0 <? 4)%float = true /\ (3 <? 6)%float = true /\ (10 <? 11)%float = true /\
  dose_response_b64 b64_exp 10 3 6 4 0 = Some 6%float /\
  dose_response_b64 b64_exp 11 3 6 4 0 = Some 6%float.
Proof. repeat split; vm_compute; reflexivity. Qed.

(** C3, as stated, fails of the program: with plateaus 0.1 and 0.7 the
    call at [x = c50] returns 0.4, while [(0.1 + 0.7) / 2] is
    0.39999999999999997. *)
Lemma midpoint_fails_in_binary64 :
  dose_response_b64 b64_exp 0 0.1 0.7 4 0 = Some 0.4%float /\
  ((0.1 + 0.7) / 2)%float = 0.39999999999999997%float /\
  (0.4 =? 0.39999999999999997)%float = false.
Proof. repeat split; vm_compute; reflexivity. Qed.

(** C9, as stated, fails of the program: with the parameters of [y1] it
    returns [upper = 6] exactly at [x = 10] and [lower = 3] exactly at
    [x = -10]. *)
Lemma plateau_reached_in_binary64 :
  (3 <? 6)%float = true /\
  dose_response_b64 b64_exp 10 3 6 4 0 = Some 6%float /\
  (6 <? 6)%float = false /\
  dose_response_b64 b64_exp (-10) 3 6 4 0 = Some 3%float /\
  (3 <? 3)%float = false.
Proof. repeat split; vm_compute; reflexivity. Qed.

(** C3, amended.  For finite [slope] and [c50] the program returns at
    [x = c50] the float [lower + (upper - lower) / 2], whatever [np.exp] does
    away from zero; in exact real arithmetic that expression equals
    [(lower + upper) / 2]. *)
Theorem dose_response_at_midpoint
    (fexp : float -> float) (lower upper slope c50 : float) :
  fexp PrimFloat.zero = PrimFloat.one -> fexp PrimFloat.neg_zero = PrimFloat.one ->
  PrimFloat.is_finite slope = true -> PrimFloat.is_finite c50 = true ->
  dose_response_b64 fexp c50 lower upper slope c50
  = Some (lower + (upper - lower) / 2)%float /\
  (forall l u s c : R,
      dose_response_float c l u s c = Some (l + (u - l) / 2) /\
      l + (u - l) / 2 = (l + u) / 2).
Proof.
  intros H0 Hn0 Hs Hc. split.
  - apply dose_response_b64_at_zero_exponent; [exact H0|exact Hn0|].
    rewrite (sub_self c50 Hc). apply mul_zero_r; [exact Hs|left; reflexivity].
  - intros l u s c. rewrite dose_response_float_eq, sigmoid4_midpoint.
    split; [f_equal; field|field].
Qed.

Lemma dose_response_at_midpoint_example :
  b64_exp PrimFloat.zero = PrimFloat.one /\ b64_exp PrimFloat.neg_zero = PrimFloat.one /\
  PrimFloat.is_finite 4 = true /\ PrimFloat.is_finite 0 = true /\
  dose_response_b64 b64_exp 0 0.1 0.7 4 0 = Some (0.1 + (0.7 - 0.1) / 2)%float.
Proof.
  split; [reflexivity|]. split; [reflexivity|]. split; [reflexivity|]. split; [reflexivity|].
  apply (proj1 (dose_response_at_midpoint b64_exp 0.1 0.7 4 0
                  eq_refl eq_refl eq_refl eq_refl)).
Defined.

(** X1.  With [slope] a zero and [c50 - x] finite the program returns
    [lower + (upper - lower) / 2] at every [x]: the curve is flat. *)
Theorem dose_response_flat_when_slope_zero
    (fexp : float -> float) (x lower upper slope c50 : float) :
  fexp PrimFloat.zero = PrimFloat.one -> fexp PrimFloat.neg_zero = PrimFloat.one ->
  PrimFloat.is_zero slope = true -> PrimFloat.is_finite (c50 - x) = true ->
  dose_response_b64 fexp x lower upper slope c50
  = Some (lower + (upper - lower) / 2)%float.
Proof.
  intros H0 Hn0 Hs Hfin.
  apply dose_response_b64_at_zero_exponent; [exact H0|exact Hn0|].
  apply mul_zero_l; [apply is_zero_cases, Hs|exact Hfin].
Qed.

Lemma dose_response_flat_when_slope_zero_example :
  b64_exp PrimFloat.zero = PrimFloat.one /\ b64_exp PrimFloat.neg_zero = PrimFloat.one /\
  PrimFloat.is_zero 0 = true /\ PrimFloat.is_finite (1.5 - 10) = true /\
  dose_response_b64 b64_exp 10 2.5 8 0 1.5 = Some (2.5 + (8 - 2.5) / 2)%float.
Proof.
  split; [reflexivity|]. split; [reflexivity|]. split; [reflexivity|]. split; [reflexivity|].
  apply (dose_response_flat_when_slope_zero b64_exp 10 2.5 8 0 1.5
           eq_refl eq_refl eq_refl eq_refl).
Defined.
